(** * Text-based image recommendation app: a shallow embedding of [app.py]

    The development models [src/app.py]: the three document readers, the
    dispatcher [process_file], the two HTTP helpers [check_api_status] and
    [get_image_recommendation], and the page script [main] that glues them
    to the session history.

    Python strings are represented by their UTF-8 encoding, so a Rocq
    [string] (a list of bytes) stands for the Python [str] with that
    encoding; concatenation, emptiness and equality agree under this
    representation.  Whatever lives outside the repository (the HTTP
    server, the docx and PDF parsers, the image widget, the wall clock) is
    an oracle collected in the record [World]. *)

From Stdlib Require Import ZArith List String Ascii Bool Lia.
From Stdlib.Strings Require Import Byte.
From stdpp Require Import gmap strings list.

Local Open Scope string_scope.
Local Open Scope list_scope.
Set Warnings "-register-all".

(** ** Python values and exceptions *)

(** The exception classes the script can meet.  All of them derive from
    Python's [Exception]; [isinstance] below encodes the class hierarchy of
    [requests.exceptions]. *)
Inductive exn_class :=
  | HTTPError
  | ConnectionError
  | ConnectTimeout
  | ReadTimeout
  | ReqTimeout            (* requests.exceptions.Timeout *)
  | InvalidJSONError      (* requests.exceptions.JSONDecodeError and its base *)
  | RequestException
  | UnicodeDecodeError
  | ValueError
  | AttributeError
  | KeyError
  | OtherException.

Record exn := mk_exn { exn_cls : exn_class; exn_msg : string }.

(** [subclass c b]: class [c] is [b] or derives from it. *)
Definition subclass (c b : exn_class) : bool :=
  match b, c with
  | RequestException,
    (HTTPError | ConnectionError | ConnectTimeout | ReadTimeout
     | ReqTimeout | InvalidJSONError | RequestException) => true
  | ConnectionError, (ConnectionError | ConnectTimeout) => true
  | ReqTimeout, (ReqTimeout | ConnectTimeout | ReadTimeout) => true
  | ValueError, (ValueError | UnicodeDecodeError) => true
  | HTTPError, HTTPError => true
  | ConnectTimeout, ConnectTimeout => true
  | ReadTimeout, ReadTimeout => true
  | InvalidJSONError, InvalidJSONError => true
  | UnicodeDecodeError, UnicodeDecodeError => true
  | AttributeError, AttributeError => true
  | KeyError, KeyError => true
  | OtherException, OtherException => true
  | _, _ => false
  end.

Definition isinstance (e : exn) (b : exn_class) : bool := subclass (exn_cls e) b.

(** [str(e)], as interpolated by the f-strings of the error messages. *)
Definition str_exn (e : exn) : string := exn_msg e.

(** A call either returns a value or raises. *)
Inductive outcome (A : Type) :=
  | Return (a : A)
  | Raise (e : exn).
Arguments Return {A} a.
Arguments Raise {A} e.

(** Parsed JSON, as [response.json()] hands it back. An object is kept as
    the list of its members; [dict_get] reads the first binding of a key. *)
Inductive jvalue :=
  | JNull
  | JBool (b : bool)
  | JNum (n : Z)
  | JStr (s : string)
  | JArr (l : list jvalue)
  | JObj (members : list (string * jvalue)).

Fixpoint dict_get (k : string) (members : list (string * jvalue)) : option jvalue :=
  match members with
  | [] => None
  | (k', v) :: rest => if String.eqb k k' then Some v else dict_get k rest
  end.

(** [requests.Response]: the status code and what [.json()] does. *)
Record Response := mk_Response {
  status_code : Z;
  json : outcome jvalue
}.

(** The statuses on which [raise_for_status] raises: client and server
    errors. *)
Definition is_http_error (r : Response) : bool :=
  ((400 <=? status_code r) && (status_code r <? 600))%Z.

(** Query parameters passed to [requests.get]. *)
Inductive pyparam :=
  | PStr (s : string)
  | PBool (b : bool).

(** Things handed to [print]. *)
Inductive printed :=
  | PrNone
  | PrResponse (r : Response)
  | PrJson (j : jvalue).

(** ** Uploaded documents and the parsing libraries *)

Record UploadedFile := mk_UploadedFile {
  type : string;            (* declared media type *)
  payload : list byte       (* what [file.read()] returns *)
}.

(** [docx.Document]: the text of each paragraph, in document order. *)
Record Docx := mk_Docx { paragraphs : list string }.

(** [PyPDF2] page and reader objects; every method may raise. *)
Record PageObject := mk_Page { extract_text : outcome string }.

Record PdfReader := mk_PdfReader {
  getNumPages : outcome nat;
  getPage : nat -> outcome PageObject
}.

(** ** Wall clock *)

Record datetime := mk_datetime {
  year : nat; month : nat; day : nat;
  hour : nat; minute : nat; second : nat
}.

(** ** Observable effects *)

Inductive event :=
  | HttpGet (url : string) (params : list (string * pyparam))
  | StTitle (s : string)
  | StHeader (s : string)
  | StWrite (s : string)
  | StError (s : string)
  | StImage (j : jvalue)
  | StVideo (s : string)
  | Stdout (p : printed).

(** ** The environment *)

Record World := mk_World {
  requests_get : string -> list (string * pyparam) -> outcome Response;
  Document : UploadedFile -> outcome Docx;
  PdfFileReader : UploadedFile -> outcome PdfReader;
  st_image_raises : jvalue -> option exn;
  st_video_raises : string -> option exn;
  datetime_now : datetime
}.

(** ** Program state and the effect monad *)

(** The two module-level globals of [app.py]. *)
Record state := mk_state {
  history : list (gmap string string);
  api_status : string
}.

(** A computation reads and updates the globals, appends to the trace of
    observable effects and either returns or raises. *)
Definition M (A : Type) : Type := state -> outcome A * state * list event.

Definition ret {A} (a : A) : M A := fun s => (Return a, s, []).

Definition raise {A} (e : exn) : M A := fun s => (Raise e, s, []).

Definition bind {A B} (m : M A) (f : A -> M B) : M B :=
  fun s =>
    match m s with
    | (Return a, s1, t1) =>
        match f a s1 with
        | (r, s2, t2) => (r, s2, t1 ++ t2)
        end
    | (Raise e, s1, t1) => (Raise e, s1, t1)
    end.

Notation "x <- m ;; k" := (bind m (fun x => k))
  (at level 100, m at next level, right associativity).
Notation "m ;; k" := (bind m (fun _ => k))
  (at level 100, right associativity).

Definition lift {A} (o : outcome A) : M A := fun s => (o, s, []).

Definition emit (e : event) : M unit := fun s => (Return tt, s, [e]).

(** [try: body / except Exception as e: handler e]. *)
Definition try_except {A} (body : M A) (handler : exn -> M A) : M A :=
  fun s =>
    match body s with
    | (Return a, s1, t1) => (Return a, s1, t1)
    | (Raise e, s1, t1) =>
        match handler e s1 with
        | (r, s2, t2) => (r, s2, t1 ++ t2)
        end
    end.

Fixpoint mapM {A B} (f : A -> M B) (l : list A) : M (list B) :=
  match l with
  | [] => ret []
  | x :: rest => y <- f x ;; ys <- mapM f rest ;; ret (y :: ys)
  end.

(** ** Strings *)

Definition nl : string := String "010"%char EmptyString.

(** ['\n'.join(l)] is [String.concat nl l]. *)

(** [s.split('\n')]: the lines of [s]. *)
Fixpoint split_nl (s : string) : list string :=
  match s with
  | EmptyString => [EmptyString]
  | String c rest =>
      if Ascii.eqb c "010"%char then EmptyString :: split_nl rest
      else match split_nl rest with
           | [] => [String c EmptyString]
           | l :: ls => String c l :: ls
           end
  end.

(** *** UTF-8 *)

Definition in_range (lo hi : N) (b : byte) : bool :=
  (lo <=? Byte.to_N b)%N && (Byte.to_N b <=? hi)%N.

Definition is_cont (b : byte) : bool := in_range 128 191 b.

(** Well-formed UTF-8 byte sequences (Unicode table 3-7), which is what
    the strict ['utf-8'] codec accepts. *)
Fixpoint utf8_valid (bs : list byte) : bool :=
  match bs with
  | [] => true
  | b0 :: r0 =>
      if in_range 0 127 b0 then utf8_valid r0
      else if in_range 194 223 b0 then
        match r0 with
        | b1 :: r1 => is_cont b1 && utf8_valid r1
        | _ => false
        end
      else if in_range 224 239 b0 then
        match r0 with
        | b1 :: b2 :: r2 =>
            (if in_range 224 224 b0 then in_range 160 191 b1
             else if in_range 237 237 b0 then in_range 128 159 b1
             else is_cont b1)
            && is_cont b2 && utf8_valid r2
        | _ => false
        end
      else if in_range 240 244 b0 then
        match r0 with
        | b1 :: b2 :: b3 :: r3 =>
            (if in_range 240 240 b0 then in_range 144 191 b1
             else if in_range 244 244 b0 then in_range 128 143 b1
             else is_cont b1)
            && is_cont b2 && is_cont b3 && utf8_valid r3
        | _ => false
        end
      else false
  end.

(** [bytes.decode('utf-8')]. *)
Definition decode_utf8 (bs : list byte) : outcome string :=
  if utf8_valid bs then Return (string_of_list_byte bs)
  else Raise (mk_exn UnicodeDecodeError "'utf-8' codec can't decode bytes").

(** [datetime.strftime("%Y-%m-%d %H:%M:%S")], as CPython prints it on
    glibc: the year is a decimal number without padding (four digits from
    the year 1000 on), every other field a zero-padded number of two
    digits. *)
Definition digit (n : nat) : ascii := ascii_of_nat (48 + n mod 10).

(** The last [k] decimal digits of [n], in front of [acc]. *)
Fixpoint dec (k n : nat) (acc : string) : string :=
  match k with
  | 0 => acc
  | S k' => dec k' (n / 10) (String (digit n) acc)
  end.

Definition zfill (k n : nat) : string := dec k n EmptyString.

(** The number of decimal digits of a year of [datetime] (1 to 9999). *)
Definition year_width (y : nat) : nat :=
  if (y <? 10)%nat then 1
  else if (y <? 100)%nat then 2
  else if (y <? 1000)%nat then 3
  else 4.

Definition strftime (d : datetime) : string :=
  (zfill (year_width (year d)) (year d)
   ++ "-" ++ zfill 2 (month d) ++ "-" ++ zfill 2 (day d) ++ " "
   ++ zfill 2 (hour d) ++ ":" ++ zfill 2 (minute d) ++ ":" ++ zfill 2 (second d))%string.

(** ** Widgets *)

(** What the widgets of the Demo tab hand to the script in one run. *)
Record UI := mk_UI {
  text_area : string;
  file_uploader : option UploadedFile;
  radio : string;
  button : bool
}.


(** Truth value of an [Optional[str]]: [None] and [""] are falsy. *)
Definition truthy (v : option string) : bool :=
  match v with
  | Some (String _ _) => true
  | _ => false
  end.

(** The [str] behind a truthy [Optional[str]]. *)
Definition the_str (v : option string) : string :=
  match v with
  | Some s => s
  | None => EmptyString
  end.

(** [x in l] on strings. *)
Definition str_in (x : string) (l : list string) : bool :=
  existsb (String.eqb x) l.

Definition intro_text : string :=
  "
            This application allows you to input text or upload text files (txt, docx, pdf) and receive 
            recommendations for images that match the content of the text. The app sends your 
            text data to an external API and displays the recommended images  directly within the app.
            
            ### How to Use:
            1. Go to the Demo tab.
            2. Enter text or upload a file.
            3. Choose whether you want photos.
            4. Submit to see recommended images.
            5. Check the History tab to view past recommendations based on timestamps.
        ".

Definition docx_type : string :=
  "application/vnd.openxmlformats-officedocument.wordprocessingml.document".

(** ** The program *)

Definition api_url : string := "https://a68c-34-75-130-231.ngrok-free.app".

Section Program.

Variable w : World.

(** *** Library calls as computations *)

Definition st_error (msg : string) : M unit := emit (StError msg).
Definition st_write (msg : string) : M unit := emit (StWrite msg).

Definition http_get (url : string) (params : list (string * pyparam)) : M Response :=
  emit (HttpGet url params) ;; lift (requests_get w url params).

(** [response.raise_for_status()]: [HTTPError] on a 4xx or 5xx status. *)
Definition raise_for_status (r : Response) : M unit :=
  if is_http_error r
  then raise (mk_exn HTTPError "HTTP error")
  else ret tt.

(** [response.json().get("status") == "API is running"]; [.get] exists on
    a dict only. *)
Definition json_get_status_is_running (r : Response) : M bool :=
  j <- lift (json r) ;;
  match j with
  | JObj members =>
      ret match dict_get "status" members with
          | Some (JStr v) => String.eqb v "API is running"
          | _ => false
          end
  | _ => raise (mk_exn AttributeError "object has no attribute 'get'")
  end.

Definition check_api_status : M string :=
  try_except
    (response <- http_get (api_url ++ "/status") [] ;;
     raise_for_status response ;;
     running <- json_get_status_is_running response ;;
     if running then ret "Running" else ret "Unknown Status")
    (fun e =>
       if isinstance e RequestException then ret "Not Available"
       else raise e).

(** *** Document readers *)

Definition read_text_file (file : UploadedFile) : M string :=
  try_except
    (lift (decode_utf8 (payload file)))
    (fun e => st_error ("Error reading text file: " ++ str_exn e) ;; ret "").

Definition read_docx_file (file : UploadedFile) : M string :=
  try_except
    (doc <- lift (Document w file) ;;
     let full_text := paragraphs doc in
     ret (String.concat nl full_text))
    (fun e => st_error ("Error reading DOCX file: " ++ str_exn e) ;; ret "").

(** [pdf_reader.getPage(page).extract_text()]. *)
Definition page_text (pdf_reader : PdfReader) (page : nat) : M string :=
  p <- lift (getPage pdf_reader page) ;;
  lift (extract_text p).

(** The [try] body of [read_pdf_file]. *)
Definition pdf_body (file : UploadedFile) : M string :=
  pdf_reader <- lift (PdfFileReader w file) ;;
  n <- lift (getNumPages pdf_reader) ;;
  text <- mapM (page_text pdf_reader) (seq 0 n) ;;
  ret (String.concat nl text).

Definition read_pdf_file (file : UploadedFile) : M string :=
  try_except
    (pdf_body file)
    (fun e => st_error ("Error reading PDF file: " ++ str_exn e) ;; ret "").

Definition process_file (uploaded_file : UploadedFile) : M (option string) :=
  try_except
    (if String.eqb (type uploaded_file) "text/plain" then
       t <- read_text_file uploaded_file ;; ret (Some t)
     else if String.eqb (type uploaded_file) docx_type then
       t <- read_docx_file uploaded_file ;; ret (Some t)
     else if String.eqb (type uploaded_file) "application/pdf" then
       t <- read_pdf_file uploaded_file ;; ret (Some t)
     else
       st_error "Unsupported file type" ;; ret None)
    (fun e => st_error ("Error processing file: " ++ str_exn e) ;; ret None).

(** *** Recommendation client *)

Definition get_image_recommendation (query : string) (use_ai : bool)
  : M (option Response) :=
  try_except
    (response <- http_get (api_url ++ "/recommend_images")
                   [("query", PStr query); ("use_ai", PBool use_ai)] ;;
     emit (Stdout (PrResponse response)) ;;
     ret (Some response))
    (fun e =>
       (if isinstance e HTTPError then
          st_error ("HTTP error occurred: " ++ str_exn e)
        else if isinstance e ConnectionError then
          st_error ("Connection error occurred: " ++ str_exn e)
        else if isinstance e ReqTimeout then
          st_error ("Timeout error occurred: " ++ str_exn e)
        else if isinstance e RequestException then
          st_error ("Request error occurred: " ++ str_exn e)
        else
          st_error ("An unexpected error occurred: " ++ str_exn e)) ;;
       ret None).

(** *** Globals *)

Definition get_history : M (list (gmap string string)) :=
  fun s => (Return (history s), s, []).

Definition get_api_status : M string :=
  fun s => (Return (api_status s), s, []).

Definition set_api_status (v : string) : M unit :=
  fun s => (Return tt, mk_state (history s) v, []).

Definition history_append (results : gmap string string) : M unit :=
  fun s => (Return tt, mk_state (history s ++ [results]) (api_status s), []).

(** *** The page script *)

(** [x.json()] where [x] is what [get_image_recommendation] returned. *)
Definition call_json (x : option Response) : M jvalue :=
  match x with
  | Some response => lift (json response)
  | None => raise (mk_exn AttributeError "'NoneType' object has no attribute 'json'")
  end.

Definition st_image (j : jvalue) : M unit :=
  emit (StImage j) ;;
  match st_image_raises w j with
  | Some e => raise e
  | None => ret tt
  end.

Definition st_video (v : string) : M unit :=
  emit (StVideo v) ;;
  match st_video_raises w v with
  | Some e => raise e
  | None => ret tt
  end.

(** [d[k]] on a dict. *)
Definition dict_item (d : gmap string string) (k : string) : M string :=
  match d !! k with
  | Some v => ret v
  | None => raise (mk_exn KeyError k)
  end.

Definition dict_has (d : gmap string string) (k : string) : bool :=
  bool_decide (is_Some (d !! k)).

Fixpoint for_each {A} (l : list A) (body : A -> M unit) : M unit :=
  match l with
  | [] => ret tt
  | x :: rest => body x ;; for_each rest body
  end.

(** The branch of [main] taken on Submit when there is text and the API
    is running. *)
Definition recommend (user_text media_type : string) : M unit :=
  let results : gmap string string := {[ "text" := user_text ]} in
  (if str_in media_type ["AI"] then
     st_write "### Recommended AI Image" ;;
     image <- get_image_recommendation user_text true ;;
     j <- call_json image ;;
     emit (Stdout (PrJson j)) ;;
     j' <- call_json image ;;
     st_image j'
   else ret tt) ;;
  (if str_in media_type ["Stock Images"] then
     st_write "### Recommended Stock Images" ;;
     img_path <- get_image_recommendation user_text false ;;
     emit (Stdout (match img_path with
                   | Some r => PrResponse r
                   | None => PrNone
                   end)) ;;
     j <- call_json img_path ;;
     st_image j
   else ret tt) ;;
  let timestamp := strftime (datetime_now w) in
  let results := <[ "timestamp" := timestamp ]> results in
  history_append results.

(** The [if]/[elif]/[elif] under [st.button("Submit")]. *)
Definition on_submit (user_text : option string) (media_type : string) : M unit :=
  status <- get_api_status ;;
  if truthy user_text && String.eqb status "Running" then
    recommend (the_str user_text) media_type
  else if negb (truthy user_text) then
    st_error "Please enter text or upload a file to get recommendations."
  else if negb (String.eqb status "Running") then
    st_error "Cannot perform recommendations as the API is not running."
  else ret tt.

Definition tab_introduction : M unit :=
  emit (StHeader "Introduction") ;;
  st_write intro_text.

(** The text the Demo tab ends up with: the text area, overridden by the
    uploaded file when there is one. *)
Definition collect_text (ui : UI) : M (option string) :=
  let user_text := Some (text_area ui) in
  match file_uploader ui with
  | Some uploaded_file => process_file uploaded_file
  | None => ret user_text
  end.

Definition tab_demo (ui : UI) : M unit :=
  emit (StHeader "Demo: Get Image Recommendations") ;;
  status <- get_api_status ;;
  st_write ("**API Status:** " ++ status) ;;
  user_text <- collect_text ui ;;
  let media_type := radio ui in
  if button ui then on_submit user_text media_type else ret tt.

Definition tab_history : M unit :=
  emit (StHeader "History of Recommendations") ;;
  st_write "Here are your previous recommendations based on the input text:" ;;
  h <- get_history ;;
  match h with
  | _ :: _ =>
      for_each h (fun result =>
        ts <- dict_item result "timestamp" ;;
        st_write ("**Timestamp:** " ++ ts) ;;
        tx <- dict_item result "text" ;;
        st_write ("**Text:** " ++ tx) ;;
        (if dict_has result "AI Image" then
           st_write "**Image:**" ;;
           img <- dict_item result "image" ;;
           st_image (JStr img)
         else ret tt) ;;
        (if dict_has result "Stock Image" then
           st_write "**Video:**" ;;
           v <- dict_item result "video" ;;
           st_video v
         else ret tt) ;;
        st_write "---")
  | [] => st_write "No history available yet."
  end.

Definition main (ui : UI) : M unit :=
  status <- check_api_status ;;
  set_api_status status ;;
  emit (StTitle "Text-based Image Recommendation App") ;;
  tab_introduction ;;
  tab_demo ui ;;
  tab_history.

End Program.

(** * Vocabulary of the properties *)

(** ** Reading a run *)

Definition result_of {A} (x : outcome A * state * list event) : outcome A := x.1.1.
Definition state_of {A} (x : outcome A * state * list event) : state := x.1.2.
Definition trace_of {A} (x : outcome A * state * list event) : list event := x.2.

(** A request to the recommendation endpoint. *)
Definition is_fetch (e : event) : bool :=
  match e with
  | HttpGet url _ => String.eqb url (api_url ++ "/recommend_images")
  | _ => false
  end.

Definition is_st_error (e : event) : bool :=
  match e with
  | StError _ => true
  | _ => false
  end.

Definition fetch_count (t : list event) : nat := length (List.filter is_fetch t).

Fixpoint has_nl (s : string) : bool :=
  match s with
  | EmptyString => false
  | String c rest => Ascii.eqb c "010"%char || has_nl rest
  end.

(** What [pdf_reader.getPage(i).extract_text()] evaluates to. *)
Definition page_outcome (r : PdfReader) (i : nat) : outcome string :=
  match getPage r i with
  | Return p => extract_text p
  | Raise e => Raise e
  end.

(** The media types [process_file] dispatches on. *)
Definition supported (ty : string) : bool :=
  str_in ty ["text/plain"; docx_type; "application/pdf"].


(** The two endpoints and the query parameters of a recommendation. *)
Definition status_url : string := api_url ++ "/status".
Definition fetch_url : string := api_url ++ "/recommend_images".
Definition fetch_params (query : string) (use_ai : bool) : list (string * pyparam) :=
  [("query", PStr query); ("use_ai", PBool use_ai)].

(** The [use_ai] flag [main] passes for a media-type selection, when it
    fetches at all. *)
Definition media_flag (media_type : string) : option bool :=
  if String.eqb media_type "AI" then Some true
  else if String.eqb media_type "Stock Images" then Some false
  else None.

(** What the page shows before the Demo tab reads its widgets. *)
Definition page_head (status : string) : list event :=
  [ StTitle "Text-based Image Recommendation App";
    StHeader "Introduction";
    StWrite intro_text;
    StHeader "Demo: Get Image Recommendations";
    StWrite ("**API Status:** " ++ status) ].

(** The history entry [main] stores for a text at a clock reading. *)
Definition entry (text : string) (now : datetime) : gmap string string :=
  <[ "timestamp" := strftime now ]> {[ "text" := text ]}.

(** A computation that leaves both globals alone and sends nothing to the
    recommendation endpoint. *)
Definition inert {A} (m : M A) : Prop :=
  forall s, state_of (m s) = s /\ fetch_count (trace_of (m s)) = 0.

(** The ways the [try] body of [read_pdf_file] can raise [e]: opening the
    file, counting the pages, or the first page that cannot be read. *)
Inductive pdf_fails (w : World) (file : UploadedFile) (e : exn) : Prop :=
  | pdf_open_fails :
      PdfFileReader w file = Raise e -> pdf_fails w file e
  | pdf_count_fails r :
      PdfFileReader w file = Return r -> getNumPages r = Raise e ->
      pdf_fails w file e
  | pdf_page_fails r n k seg :
      PdfFileReader w file = Return r -> getNumPages r = Return n ->
      k < n ->
      (forall i, i < k -> page_outcome r i = Return (seg i)) ->
      page_outcome r k = Raise e ->
      pdf_fails w file e.

(** Lexicographic combination of comparisons. *)
Definition lex (c1 c2 : comparison) : comparison :=
  match c1 with
  | Eq => c2
  | _ => c1
  end.

(** Chronological order of clock readings. *)
Definition dt_compare (a b : datetime) : comparison :=
  lex (Nat.compare (year a) (year b))
  (lex (Nat.compare (month a) (month b))
  (lex (Nat.compare (day a) (day b))
  (lex (Nat.compare (hour a) (hour b))
  (lex (Nat.compare (minute a) (minute b))
       (Nat.compare (second a) (second b)))))).

Definition dt_leb (a b : datetime) : bool :=
  match dt_compare a b with
  | Gt => false
  | _ => true
  end.

(** The field ranges of a [datetime]. *)
Definition valid_datetime (d : datetime) : bool :=
  ((1 <=? year d) && (year d <? 10 ^ 4)
   && (1 <=? month d) && (month d <=? 12)
   && (1 <=? day d) && (day d <=? 31)
   && (hour d <? 24) && (minute d <? 60) && (second d <? 60))%nat.

(** Clock readings whose year has four digits. *)
Definition four_digit_year (d : datetime) : bool := (1000 <=? year d)%nat.

(** ** Sample inputs *)

(** The globals as the module initialises them. *)
Definition initial_state : state := mk_state [] "Unknown".

(** One execution of the script, from its first line to its last: the
    module initialises [history] and [api_status] and then calls
    [main]. *)
Definition script (w : World) (ui : UI) : outcome unit * state * list event :=
  main w ui initial_state.

Definition running_reply : outcome Response :=
  Return (mk_Response 200 (Return (JObj [("status", JStr "API is running")]))).

Definition sample_clock : datetime := mk_datetime 2024 5 17 10 30 0.

(** A two-page PDF reader; page 1 fails when [broken] is set. *)
Definition sample_pdf (broken : bool) : PdfReader :=
  mk_PdfReader (Return 2)
    (fun i => match i with
              | 0 => Return (mk_Page (Return "first page"))
              | _ => Return (mk_Page
                       (if broken then Raise (mk_exn KeyError "/Contents")
                        else Return "second page"))
              end).

(** A world whose server answers the status probe with [status_reply]
    and everything else with [fetch_reply]; the docx parser accepts files
    whose payload is not empty, the PDF parser likewise, and the image
    widget accepts strings and lists. *)
Definition sample_world (status_reply fetch_reply : outcome Response) : World :=
  mk_World
    (fun url _ => if String.eqb url status_url then status_reply else fetch_reply)
    (fun f => match payload f with
              | [] => Raise (mk_exn OtherException "Package not found")
              | _ => Return (mk_Docx ["Title"; "Body text"])
              end)
    (fun f => match payload f with
              | [] => Raise (mk_exn OtherException "Cannot read an empty file")
              | [_] => Return (sample_pdf true)
              | _ => Return (sample_pdf false)
              end)
    (fun j => match j with
              | JStr _ | JArr _ => None
              | _ => Some (mk_exn OtherException "cannot display this value")
              end)
    (fun _ => None)
    sample_clock.

(** Replies of the recommendation endpoint. *)
Definition image_reply : outcome Response :=
  Return (mk_Response 200 (Return (JArr [JStr "img1.png"]))).

Definition server_error_reply : outcome Response :=
  Return (mk_Response 500 (Return (JArr [JStr "img1.png"]))).

Definition unavailable_reply : outcome Response :=
  Return (mk_Response 503 (Return (JStr "https://example.com/img1.png"))).

Definition not_json_reply : outcome Response :=
  Return (mk_Response 200 (Raise (mk_exn InvalidJSONError "Expecting value"))).

Definition unreachable : outcome Response :=
  Raise (mk_exn ConnectionError "Max retries exceeded").

(** A status reply that is a JSON array rather than an object. *)
Definition array_status_reply : outcome Response :=
  Return (mk_Response 200 (Return (JArr []))).

Definition healthy_world : World := sample_world running_reply image_reply.

Definition earlier_clock : datetime := mk_datetime 2024 5 17 9 30 0.

Definition set_clock (d : datetime) (w : World) : World :=
  mk_World (requests_get w) (Document w) (PdfFileReader w)
           (st_image_raises w) (st_video_raises w) d.

(** The history after one earlier recommendation. *)
Definition one_entry_state : state :=
  mk_state [entry "a dog" earlier_clock] "Unknown".

Definition typed (text media_type : string) : UI :=
  mk_UI text None media_type true.

Definition uploaded (ty : string) (bytes : list byte) (media_type : string) : UI :=
  mk_UI "" (Some (mk_UploadedFile ty bytes)) media_type true.

(** ** Vocabulary of the further properties *)

(** Any HTTP request, to either endpoint. *)
Definition is_http (e : event) : bool :=
  match e with
  | HttpGet _ _ => true
  | _ => false
  end.

Definition http_requests (t : list event) : list event := List.filter is_http t.

(** An image or a video shown on the page. *)
Definition is_media (e : event) : bool :=
  match e with
  | StImage _ | StVideo _ => true
  | _ => false
  end.

(** A computation that leaves both globals alone and emits no event
    selected by [P]. *)
Definition quiet (P : event -> bool) {A} (m : M A) : Prop :=
  forall s, state_of (m s) = s /\ List.filter P (trace_of (m s)) = [].

(** A history entry as [main] builds it: exactly the keys ["text"] and
    ["timestamp"]. *)
Definition is_entry (d : gmap string string) : Prop :=
  exists text ts, d = <[ "timestamp" := ts ]> {[ "text" := text ]}.

(** What the History tab writes for one entry. *)
Definition shown (d : gmap string string) : list event :=
  [ StWrite ("**Timestamp:** " ++ default "" (d !! "timestamp"));
    StWrite ("**Text:** " ++ default "" (d !! "text"));
    StWrite "---" ].

(** The two lines that open the History tab. *)
Definition history_head : list event :=
  [ StHeader "History of Recommendations";
    StWrite "Here are your previous recommendations based on the input text:" ].

Definition is_header (e : event) : bool :=
  match e with
  | StHeader _ => true
  | _ => false
  end.

(** The prefixes of the messages [get_image_recommendation] can show. *)
Definition fetch_error_prefixes : list string :=
  [ "HTTP error occurred: "; "Connection error occurred: ";
    "Timeout error occurred: "; "Request error occurred: ";
    "An unexpected error occurred: " ].

Definition no_text_message : string :=
  "Please enter text or upload a file to get recommendations.".

Definition not_running_message : string :=
  "Cannot perform recommendations as the API is not running.".

(** One of the two messages the Submit handler itself shows. *)
Definition is_submit_message (e : event) : bool :=
  match e with
  | StError m => String.eqb m no_text_message || String.eqb m not_running_message
  | _ => false
  end.

(** A request that runs into a connect timeout. *)
Definition connect_timeout : outcome Response :=
  Raise (mk_exn ConnectTimeout "Connection to server timed out").

Definition not_submitted : UI := mk_UI "a cat" None "AI" false.

(** A history entry that carries the key the History tab tests for an
    image, but not the key it then reads. *)
Definition mismatched_entry : gmap string string :=
  <[ "AI Image" := "img1.png" ]> (entry "a cat" sample_clock).

(** * Properties *)

Ltac unfold_monad :=
  unfold bind, ret, raise, lift, emit, try_except, st_error, st_write in *.

(** ** Strings *)

Lemma split_nl_nonempty (s : string) : split_nl s <> [].
Proof.
  induction s as [|c rest IH]; simpl; [discriminate|].
  destruct (Ascii.eqb c "010"%char); [discriminate|].
  destruct (split_nl rest); discriminate.
Qed.

(** Joining the lines of a text with newlines gives the text back. *)
Lemma concat_split_nl (s : string) : String.concat nl (split_nl s) = s.
Proof.
  induction s as [|c rest IH]; simpl; [reflexivity|].
  destruct (Ascii.eqb_spec c "010"%char) as [->|Hc].
  - pose proof (split_nl_nonempty rest) as Hne.
    simpl. destruct (split_nl rest) as [|l ls] eqn:E; [congruence|].
    rewrite <- IH. reflexivity.
  - pose proof (split_nl_nonempty rest) as Hne.
    destruct (split_nl rest) as [|l ls] eqn:E; [congruence|].
    rewrite <- IH. simpl. destruct ls; reflexivity.
Qed.

(** No line produced by [split_nl] holds a newline. *)
Lemma split_nl_lines (s : string) :
  Forall (fun l => has_nl l = false) (split_nl s).
Proof.
  induction s as [|c rest IH]; simpl.
  - repeat constructor.
  - destruct (Ascii.eqb c "010"%char) eqn:Hc.
    + constructor; [reflexivity | exact IH].
    + destruct (split_nl rest) as [|l ls].
      * repeat constructor. simpl. rewrite Hc. reflexivity.
      * inversion IH as [|? ? Hl Hls]; subst. constructor; [|exact Hls].
        simpl. rewrite Hc, Hl. reflexivity.
Qed.

(** ** Document readers *)

Section Readers.

Variable w : World.

Lemma page_text_run r i s : page_text r i s = (page_outcome r i, s, []).
Proof.
  unfold page_text, page_outcome. unfold_monad.
  destruct (getPage r i) as [p|e]; [|reflexivity].
  destruct (extract_text p); reflexivity.
Qed.

Lemma mapM_pages_ok r (seg : nat -> string) (l : list nat) s :
  (forall i, In i l -> page_outcome r i = Return (seg i)) ->
  mapM (page_text r) l s = (Return (map seg l), s, []).
Proof.
  induction l as [|i l IH]; intros H; simpl; [reflexivity|].
  unfold bind at 1. rewrite page_text_run, (H i) by (left; reflexivity).
  unfold bind at 1. rewrite IH by (intros; apply H; right; assumption).
  reflexivity.
Qed.

Lemma mapM_pages_fail r (seg : nat -> string) (l1 l2 : list nat) k e s :
  (forall i, In i l1 -> page_outcome r i = Return (seg i)) ->
  page_outcome r k = Raise e ->
  mapM (page_text r) (l1 ++ k :: l2) s = (Raise e, s, []).
Proof.
  induction l1 as [|i l1 IH]; intros H Hk; simpl.
  - unfold bind at 1. rewrite page_text_run, Hk. reflexivity.
  - unfold bind at 1. rewrite page_text_run, (H i) by (left; reflexivity).
    unfold bind at 1. rewrite IH; [reflexivity | | exact Hk].
    intros; apply H; right; assumption.
Qed.

(** Any run of [mapM] over pages leaves the globals alone and is silent,
    and its outcome does not depend on the globals. *)
Lemma mapM_pages_run r (l : list nat) :
  exists o, forall s, mapM (page_text r) l s = (o, s, []).
Proof.
  induction l as [|i l [o IH]]; simpl; [eexists; reflexivity|].
  destruct (page_outcome r i) as [t|e] eqn:Hp.
  - destruct o as [ts|e].
    + exists (Return (t :: ts)). intros s.
      unfold bind at 1. rewrite page_text_run, Hp.
      unfold bind at 1. rewrite IH. reflexivity.
    + exists (Raise e). intros s.
      unfold bind at 1. rewrite page_text_run, Hp.
      unfold bind at 1. rewrite IH. reflexivity.
  - exists (Raise e). intros s.
    unfold bind at 1. rewrite page_text_run, Hp. reflexivity.
Qed.

Lemma read_text_file_run file s :
  read_text_file file s =
  match decode_utf8 (payload file) with
  | Return t => (Return t, s, [])
  | Raise e => (Return "", s, [StError ("Error reading text file: " ++ str_exn e)])
  end.
Proof.
  unfold read_text_file. unfold_monad.
  destruct (decode_utf8 (payload file)); reflexivity.
Qed.

Lemma read_docx_file_run file s :
  read_docx_file w file s =
  match Document w file with
  | Return doc => (Return (String.concat nl (paragraphs doc)), s, [])
  | Raise e => (Return "", s, [StError ("Error reading DOCX file: " ++ str_exn e)])
  end.
Proof.
  unfold read_docx_file. unfold_monad.
  destruct (Document w file); reflexivity.
Qed.

Lemma pdf_body_run file : exists o, forall s, pdf_body w file s = (o, s, []).
Proof.
  unfold pdf_body.
  destruct (PdfFileReader w file) as [r|e]; [|exists (Raise e); reflexivity].
  destruct (getNumPages r) as [n|e] eqn:Hn;
    [|exists (Raise e); intros s; unfold bind, lift; rewrite Hn; reflexivity].
  destruct (mapM_pages_run r (seq 0 n)) as [o Ho].
  destruct o as [ts|e].
  - exists (Return (String.concat nl ts)). intros s.
    unfold bind at 1. unfold lift at 1. unfold bind at 1. unfold lift at 1.
    rewrite Hn. unfold bind at 1. rewrite Ho. reflexivity.
  - exists (Raise e). intros s.
    unfold bind at 1. unfold lift at 1. unfold bind at 1. unfold lift at 1.
    rewrite Hn. unfold bind at 1. rewrite Ho. reflexivity.
Qed.

Lemma read_pdf_file_run file s o :
  pdf_body w file s = (o, s, []) ->
  read_pdf_file w file s =
  match o with
  | Return t => (Return t, s, [])
  | Raise e => (Return "", s, [StError ("Error reading PDF file: " ++ str_exn e)])
  end.
Proof.
  intros H. unfold read_pdf_file.
  unfold try_except. rewrite H. destruct o; reflexivity.
Qed.

(** Every reader returns a string, leaves the globals alone and shows at
    most error messages; what it returns does not depend on the globals. *)
Lemma read_text_file_returns file :
  exists v t, forallb is_st_error t = true
              /\ forall s, read_text_file file s = (Return v, s, t).
Proof.
  destruct (decode_utf8 (payload file)) as [v|e] eqn:Hd.
  - exists v, []. split; [reflexivity|]. intros s.
    rewrite read_text_file_run, Hd. reflexivity.
  - eexists "", _. split; [|intros s; rewrite read_text_file_run, Hd; reflexivity].
    reflexivity.
Qed.

Lemma read_docx_file_returns file :
  exists v t, forallb is_st_error t = true
              /\ forall s, read_docx_file w file s = (Return v, s, t).
Proof.
  destruct (Document w file) as [doc|e] eqn:Hd.
  - eexists _, []. split; [reflexivity|]. intros s.
    rewrite read_docx_file_run, Hd. reflexivity.
  - eexists "", _. split; [|intros s; rewrite read_docx_file_run, Hd; reflexivity].
    reflexivity.
Qed.

Lemma read_pdf_file_returns file :
  exists v t, forallb is_st_error t = true
              /\ forall s, read_pdf_file w file s = (Return v, s, t).
Proof.
  destruct (pdf_body_run file) as [o Ho]. destruct o as [v|e].
  - exists v, []. split; [reflexivity|]. intros s.
    rewrite (read_pdf_file_run _ _ _ (Ho s)). reflexivity.
  - eexists "", _. split; [|intros s; rewrite (read_pdf_file_run _ _ _ (Ho s)); reflexivity].
    reflexivity.
Qed.

Lemma process_file_unsupported file s :
  supported (type file) = false ->
  process_file w file s = (Return None, s, [StError "Unsupported file type"]).
Proof.
  unfold supported, str_in. simpl. rewrite !orb_false_iff.
  intros (H1 & H2 & H3 & _). unfold process_file.
  rewrite H1, H2, H3. reflexivity.
Qed.

(** The dispatcher hands back what the reader of the declared type
    returned. *)
Lemma process_file_dispatch file (reader : UploadedFile -> M string) v t s :
  (type file = "text/plain" /\ reader = read_text_file
   \/ type file = docx_type /\ reader = read_docx_file w
   \/ type file = "application/pdf" /\ reader = read_pdf_file w) ->
  reader file s = (Return v, s, t) ->
  process_file w file s = (Return (Some v), s, t).
Proof.
  intros H Hr. unfold process_file.
  destruct H as [[Ht ->]|[[Ht ->]|[Ht ->]]]; rewrite Ht; simpl;
    unfold try_except, bind; rewrite Hr; simpl; rewrite app_nil_r; reflexivity.
Qed.

Lemma process_file_supported file :
  supported (type file) = true ->
  exists v t, forallb is_st_error t = true
              /\ forall s, process_file w file s = (Return (Some v), s, t).
Proof.
  unfold supported, str_in. simpl. intros H.
  destruct (String.eqb_spec (type file) "text/plain") as [E1|_].
  { destruct (read_text_file_returns file) as (v & t & Ht & Hr).
    exists v, t. split; [exact Ht|]. intros s.
    apply (process_file_dispatch file read_text_file); auto. }
  destruct (String.eqb_spec (type file) docx_type) as [E2|_].
  { destruct (read_docx_file_returns file) as (v & t & Ht & Hr).
    exists v, t. split; [exact Ht|]. intros s.
    apply (process_file_dispatch file (read_docx_file w)); auto. }
  destruct (String.eqb_spec (type file) "application/pdf") as [E3|_].
  { destruct (read_pdf_file_returns file) as (v & t & Ht & Hr).
    exists v, t. split; [exact Ht|]. intros s.
    apply (process_file_dispatch file (read_pdf_file w)); auto. }
  discriminate.
Qed.

Lemma process_file_returns file :
  exists v t, forallb is_st_error t = true
              /\ (v = None <-> supported (type file) = false)
              /\ forall s, process_file w file s = (Return v, s, t).
Proof.
  destruct (supported (type file)) eqn:E.
  - destruct (process_file_supported file E) as (v & t & Ht & Hr).
    exists (Some v), t. repeat split; try assumption; discriminate.
  - exists None, [StError "Unsupported file type"].
    repeat split. intros s. apply process_file_unsupported. exact E.
Qed.

End Readers.

(** ** Inert computations *)

Lemma fetch_count_app (t1 t2 : list event) :
  fetch_count (t1 ++ t2) = fetch_count t1 + fetch_count t2.
Proof. unfold fetch_count. rewrite List.filter_app, length_app. reflexivity. Qed.

Lemma fetch_count_errors (t : list event) :
  forallb is_st_error t = true -> fetch_count t = 0.
Proof.
  induction t as [|e t IH]; [reflexivity|]. simpl.
  intros [He Ht]%andb_true_iff. destruct e; try discriminate.
  exact (IH Ht).
Qed.

Lemma run_eta {A} (x : outcome A * state * list event) :
  x = (result_of x, state_of x, trace_of x).
Proof. destruct x as [[o s] t]. reflexivity. Qed.

Lemma inert_ret {A} (a : A) : inert (ret a).
Proof. intros s. split; reflexivity. Qed.

Lemma inert_raise {A} (e : exn) : inert (@raise A e).
Proof. intros s. split; reflexivity. Qed.

Lemma inert_lift {A} (o : outcome A) : inert (lift o).
Proof. intros s. split; reflexivity. Qed.

Lemma inert_emit (e : event) : is_fetch e = false -> inert (emit e).
Proof.
  intros He s. split; [reflexivity|].
  unfold emit, trace_of, fetch_count. simpl. rewrite He. reflexivity.
Qed.

Lemma inert_bind {A B} (m : M A) (f : A -> M B) :
  inert m -> (forall a, inert (f a)) -> inert (bind m f).
Proof.
  intros Hm Hf s. unfold bind.
  destruct (Hm s) as [Hs Ht]. destruct (m s) as [[o s1] t1].
  unfold state_of, trace_of in Hs, Ht. simpl in Hs, Ht. subst s1.
  destruct o as [a|e]; [|split; [reflexivity | exact Ht]].
  destruct (Hf a s) as [Hs2 Ht2]. destruct (f a s) as [[o2 s2] t2].
  unfold state_of, trace_of in *. simpl in *. subst s2.
  split; [reflexivity|]. rewrite fetch_count_app, Ht, Ht2. reflexivity.
Qed.

Lemma inert_try_except {A} (m : M A) (h : exn -> M A) :
  inert m -> (forall e, inert (h e)) -> inert (try_except m h).
Proof.
  intros Hm Hh s. unfold try_except.
  destruct (Hm s) as [Hs Ht]. destruct (m s) as [[o s1] t1].
  unfold state_of, trace_of in Hs, Ht. simpl in Hs, Ht. subst s1.
  destruct o as [a|e]; [split; [reflexivity | exact Ht]|].
  destruct (Hh e s) as [Hs2 Ht2]. destruct (h e s) as [[o2 s2] t2].
  unfold state_of, trace_of in *. simpl in *. subst s2.
  split; [reflexivity|]. rewrite fetch_count_app, Ht, Ht2. reflexivity.
Qed.

Lemma inert_for_each {A} (l : list A) (body : A -> M unit) :
  (forall x, inert (body x)) -> inert (for_each l body).
Proof.
  intros Hb. induction l as [|x l IH]; simpl.
  - apply inert_ret.
  - apply inert_bind; [apply Hb | intros _; exact IH].
Qed.

Lemma inert_mapM {A B} (f : A -> M B) (l : list A) :
  (forall x, inert (f x)) -> inert (mapM f l).
Proof.
  intros Hf. induction l as [|x l IH]; simpl.
  - apply inert_ret.
  - apply inert_bind; [apply Hf | intros y].
    apply inert_bind; [exact IH | intros ys; apply inert_ret].
Qed.

Ltac inert_step :=
  match goal with
  | |- inert (bind _ _) => apply inert_bind; [|intros ?]
  | |- inert (try_except _ _) => apply inert_try_except; [|intros ?]
  | |- inert (for_each _ _) => apply inert_for_each; intros ?
  | |- inert (mapM _ _) => apply inert_mapM; intros ?
  | |- inert (ret _) => apply inert_ret
  | |- inert (raise _) => apply inert_raise
  | |- inert (lift _) => apply inert_lift
  | |- inert (emit _) => apply inert_emit; reflexivity
  | |- inert (st_error _) => apply inert_emit; reflexivity
  | |- inert (st_write _) => apply inert_emit; reflexivity
  | |- inert (if ?b then _ else _) => destruct b
  | |- inert (match ?x with _ => _ end) => destruct x
  end.

Section Script.

Variable w : World.

Lemma inert_st_image j : inert (st_image w j).
Proof. unfold st_image. repeat inert_step. Qed.

Lemma inert_st_video v : inert (st_video w v).
Proof. unfold st_video. repeat inert_step. Qed.

Lemma inert_dict_item d k : inert (dict_item d k).
Proof. unfold dict_item. repeat inert_step. Qed.

Lemma inert_get_history : inert get_history.
Proof. intros s. split; reflexivity. Qed.

Lemma inert_get_api_status : inert get_api_status.
Proof. intros s. split; reflexivity. Qed.

Lemma inert_tab_introduction : inert tab_introduction.
Proof. unfold tab_introduction. repeat inert_step. Qed.

Lemma inert_tab_history : inert (tab_history w).
Proof.
  unfold tab_history.
  apply inert_bind; [apply inert_emit; reflexivity | intros _].
  apply inert_bind; [apply inert_emit; reflexivity | intros _].
  apply inert_bind; [apply inert_get_history | intros h].
  destruct h as [|r h]; [apply inert_emit; reflexivity|].
  apply inert_for_each. intros result.
  repeat first [ apply inert_st_image | apply inert_st_video
               | apply inert_dict_item | inert_step ].
Qed.

Lemma inert_check_api_status : inert (check_api_status w).
Proof.
  unfold check_api_status, http_get, raise_for_status, json_get_status_is_running.
  repeat inert_step.
Qed.

(** *** The status probe *)

Lemma check_api_status_run :
  exists o, forall s, check_api_status w s = (o, s, [HttpGet status_url []]).
Proof.
  unfold check_api_status, http_get, raise_for_status, json_get_status_is_running.
  fold status_url. unfold_monad.
  destruct (requests_get w status_url []) as [r|e];
    [|destruct (isinstance e RequestException); eexists; reflexivity].
  destruct (is_http_error r); [eexists; reflexivity|].
  destruct (json r) as [j|e];
    [|destruct (isinstance e RequestException); eexists; reflexivity].
  destruct j; try (eexists; reflexivity).
  destruct (dict_get "status" members) as [[]|]; try (eexists; reflexivity).
  destruct (String.eqb s "API is running"); eexists; reflexivity.
Qed.

(** *** The recommendation client *)

Lemma get_image_recommendation_ok q b r s :
  requests_get w fetch_url (fetch_params q b) = Return r ->
  get_image_recommendation w q b s =
  (Return (Some r), s,
   [HttpGet fetch_url (fetch_params q b); Stdout (PrResponse r)]).
Proof.
  intros H. unfold get_image_recommendation, http_get. unfold_monad.
  fold fetch_url. fold (fetch_params q b). rewrite H. reflexivity.
Qed.

Lemma get_image_recommendation_fail q b e s :
  requests_get w fetch_url (fetch_params q b) = Raise e ->
  exists msg,
    get_image_recommendation w q b s =
    (Return None, s, [HttpGet fetch_url (fetch_params q b); StError msg]).
Proof.
  intros H. unfold get_image_recommendation, http_get. unfold_monad.
  fold fetch_url. fold (fetch_params q b). rewrite H.
  destruct (isinstance e HTTPError); [eexists; reflexivity|].
  destruct (isinstance e ConnectionError); [eexists; reflexivity|].
  destruct (isinstance e ReqTimeout); [eexists; reflexivity|].
  destruct (isinstance e RequestException); eexists; reflexivity.
Qed.

Lemma media_flag_cases m :
  match media_flag m with
  | Some true => m = "AI"
  | Some false => m = "Stock Images"
  | None => str_in m ["AI"] = false /\ str_in m ["Stock Images"] = false
  end.
Proof.
  unfold media_flag, str_in. simpl.
  destruct (String.eqb_spec m "AI") as [->|H1]; [reflexivity|].
  destruct (String.eqb_spec m "Stock Images") as [->|H2]; [reflexivity|].
  split; reflexivity.
Qed.

(** *** The recommendation branch *)

Lemma call_json_some r s : call_json (Some r) s = (json r, s, []).
Proof. reflexivity. Qed.

Lemma st_image_run j s :
  st_image w j s =
  (match st_image_raises w j with Some e => Raise e | None => Return tt end,
   s, [StImage j]).
Proof.
  unfold st_image. unfold_monad. destruct (st_image_raises w j); reflexivity.
Qed.

(** No fetch at all when the selection is neither of the two options:
    the entry is stored straight away. *)
Lemma recommend_other text m s :
  media_flag m = None ->
  recommend w text m s =
  (Return tt,
   mk_state (history s ++ [entry text (datetime_now w)]) (api_status s), []).
Proof.
  intros H. pose proof (media_flag_cases m) as Hm. rewrite H in Hm.
  destruct Hm as [H1 H2]. unfold recommend. rewrite H1, H2. reflexivity.
Qed.

(** With one of the two options selected, [recommend] performs exactly one
    fetch; what follows depends on what came back. *)
Lemma recommend_fetch text m b s :
  media_flag m = Some b ->
  exists o s' t,
    recommend w text m s = (o, s', t) /\
    fetch_count t = 1 /\
    In (HttpGet fetch_url (fetch_params text b)) t /\
    match requests_get w fetch_url (fetch_params text b) with
    | Raise _ =>
        (exists e, o = Raise e) /\ s' = s /\ existsb is_st_error t = true
    | Return r =>
        existsb is_st_error t = false /\
        match json r with
        | Raise e => o = Raise e /\ s' = s
        | Return j =>
            match st_image_raises w j with
            | Some e => o = Raise e /\ s' = s
            | None =>
                o = Return tt /\
                s' = mk_state (history s ++ [entry text (datetime_now w)])
                              (api_status s)
            end
        end
    end.
Proof.
  intros H. pose proof (media_flag_cases m) as Hm. rewrite H in Hm.
  destruct (requests_get w fetch_url (fetch_params text b)) as [r|e] eqn:Hg.
  - pose proof (fun s0 => get_image_recommendation_ok _ _ _ s0 Hg) as Hf.
    destruct (json r) as [j|e] eqn:Hj;
      [destruct (st_image_raises w j) as [e|] eqn:Hi|].
    all: destruct b; subst m; unfold recommend;
      change (str_in "AI" ["AI"]) with true;
      change (str_in "AI" ["Stock Images"]) with false;
      change (str_in "Stock Images" ["AI"]) with false;
      change (str_in "Stock Images" ["Stock Images"]) with true;
      cbv iota;
      unfold bind, st_write, emit, ret, history_append;
      rewrite Hf; rewrite ?call_json_some, ?Hj, ?st_image_run, ?Hi;
      do 3 eexists; (split; [reflexivity|]);
      simpl; auto 10.
  - destruct (get_image_recommendation_fail _ _ _ s Hg) as [msg Hf].
    destruct b; subst m; unfold recommend;
      change (str_in "AI" ["AI"]) with true;
      change (str_in "AI" ["Stock Images"]) with false;
      change (str_in "Stock Images" ["AI"]) with false;
      change (str_in "Stock Images" ["Stock Images"]) with true;
      cbv iota;
      unfold bind, st_write, emit, ret, history_append;
      rewrite Hf; unfold call_json, raise;
      do 3 eexists; (split; [reflexivity|]);
      simpl; eauto 10.
Qed.

(** *** Submit *)

Lemma on_submit_go ut m s :
  truthy ut = true -> api_status s = "Running" ->
  on_submit w ut m s = recommend w (the_str ut) m s.
Proof.
  intros Ht Hs. unfold on_submit, bind, get_api_status.
  rewrite Ht, Hs. simpl.
  destruct (recommend w (the_str ut) m s) as [[o s'] t]. reflexivity.
Qed.

Lemma on_submit_stop ut m s :
  truthy ut && String.eqb (api_status s) "Running" = false ->
  exists msg, on_submit w ut m s = (Return tt, s, [StError msg]).
Proof.
  intros H. unfold on_submit, bind, get_api_status. rewrite H.
  destruct (truthy ut); simpl in *; [rewrite H|]; eexists; reflexivity.
Qed.

(** *** Text collection *)

Lemma collect_text_run ui :
  exists ut t,
    forallb is_st_error t = true
    /\ (forall f, file_uploader ui = Some f ->
                 (ut = None <-> supported (type f) = false))
    /\ (file_uploader ui = None -> ut = Some (text_area ui) /\ t = [])
    /\ forall s, collect_text w ui s = (Return ut, s, t).
Proof.
  unfold collect_text. destruct (file_uploader ui) as [f|].
  - destruct (process_file_returns w f) as (v & t & Ht & Hv & Hr).
    exists v, t. split; [exact Ht|].
    split; [intros f0 [= <-]; exact Hv|]. split; [discriminate | exact Hr].
  - exists (Some (text_area ui)), []. repeat split; discriminate.
Qed.

(** *** The whole script *)

Lemma main_status_raises ui s e t0 :
  check_api_status w s = (Raise e, s, t0) ->
  main w ui s = (Raise e, s, t0).
Proof. intros H. unfold main, bind. rewrite H. reflexivity. Qed.

Lemma main_run ui s st t0 ut t1 o2 s2 t2 :
  check_api_status w s = (Return st, s, t0) ->
  collect_text w ui (mk_state (history s) st)
    = (Return ut, mk_state (history s) st, t1) ->
  (if button ui then on_submit w ut (radio ui) else ret tt)
    (mk_state (history s) st) = (o2, s2, t2) ->
  exists o t3,
    main w ui s = (o, s2, t0 ++ page_head st ++ t1 ++ t2 ++ t3)
    /\ fetch_count t3 = 0
    /\ (forall e, o2 = Raise e -> o = Raise e).
Proof.
  intros Hc Ht Hs. unfold main. unfold bind at 1. rewrite Hc.
  unfold bind at 1. unfold set_api_status at 1.
  unfold bind at 1. unfold emit at 1.
  unfold bind at 1. unfold tab_introduction at 1, bind at 1, emit at 1, st_write, emit.
  unfold bind at 1. unfold tab_demo at 1. unfold bind at 1. unfold emit at 1.
  unfold bind at 1. unfold get_api_status at 1. cbv beta iota.
  unfold bind at 1. unfold st_write at 1, emit at 1.
  unfold bind at 1. simpl history. simpl api_status. rewrite Ht. rewrite Hs.
  destruct o2 as [[]|e].
  - destruct (inert_tab_history s2) as [H1 H2].
    destruct (tab_history w s2) as [[o3 s3] t3].
    unfold state_of, trace_of in H1, H2. simpl in H1, H2. subst s3.
    exists o3, t3. split; [|split; [exact H2 | discriminate]].
    simpl. rewrite <- ?app_assoc. reflexivity.
  - exists (Raise e), []. split; [|split; [reflexivity | congruence]].
    simpl. rewrite <- ?app_assoc, ?app_nil_r. reflexivity.
Qed.

(** The shape of every run of [main]: either the status probe raises and
    the script stops there, or the script reaches the Submit button with
    the probed status and the collected text, and nothing before or after
    the Submit handler touches the history or the recommendation
    endpoint. *)
Lemma main_cases ui s :
  (exists e t,
      result_of (check_api_status w s) = Raise e
      /\ main w ui s = (Raise e, s, t) /\ fetch_count t = 0
      /\ existsb is_st_error t = false)
  \/
  (exists st ut t1 o2 s2 t2 o t_pre t_post,
      result_of (check_api_status w s) = Return st
      /\ (forall s', collect_text w ui s' = (Return ut, s', t1))
      /\ (if button ui then on_submit w ut (radio ui) else ret tt)
           (mk_state (history s) st) = (o2, s2, t2)
      /\ main w ui s = (o, s2, t_pre ++ t2 ++ t_post)
      /\ fetch_count t_pre = 0 /\ fetch_count t_post = 0).
Proof.
  destruct check_api_status_run as [o0 H0]. destruct o0 as [st|e].
  - right.
    destruct (collect_text_run ui) as (ut & t1 & Ht1 & _ & _ & Hc).
    destruct ((if button ui then on_submit w ut (radio ui) else ret tt)
                (mk_state (history s) st)) as [[o2 s2] t2] eqn:Hs.
    destruct (main_run ui s st _ ut t1 o2 s2 t2 (H0 s) (Hc _) Hs)
      as (o & t3 & Hm & Ht3 & _).
    exists st, ut, t1, o2, s2, t2, o,
      ([HttpGet status_url []] ++ page_head st ++ t1), t3.
    split; [rewrite H0; reflexivity|]. split; [exact Hc|].
    split; [exact Hs|]. split; [|split; [|exact Ht3]].
    + rewrite Hm. rewrite <- !app_assoc. reflexivity.
    + rewrite !fetch_count_app, (fetch_count_errors t1 Ht1). reflexivity.
  - left. exists e, [HttpGet status_url []].
    split; [rewrite H0; reflexivity|].
    split; [apply main_status_raises, H0|]. split; reflexivity.
Qed.

End Script.

(** ** Timestamps *)

Lemma lex_assoc (a b c : comparison) : lex (lex a b) c = lex a (lex b c).
Proof. destruct a; reflexivity. Qed.

Lemma compare_div_mod (a b : nat) :
  lex (Nat.compare (a / 10) (b / 10)) (Nat.compare (a mod 10) (b mod 10))
  = Nat.compare a b.
Proof.
  pose proof (Nat.div_mod_eq a 10) as Ha.
  pose proof (Nat.div_mod_eq b 10) as Hb.
  assert (a mod 10 < 10) as Ha' by (apply Nat.mod_upper_bound; discriminate).
  assert (b mod 10 < 10) as Hb' by (apply Nat.mod_upper_bound; discriminate).
  generalize dependent (a mod 10). generalize dependent (b mod 10).
  generalize dependent (a / 10). generalize dependent (b / 10).
  intros qb qa rb Hb Hb' ra Ha Ha'. subst a b.
  destruct (Nat.compare_spec qa qb) as [Hq|Hq|Hq];
    destruct (Nat.compare_spec ra rb) as [Hr|Hr|Hr];
    destruct (Nat.compare_spec (10 * qa + ra) (10 * qb + rb)) as [Hc|Hc|Hc];
    try reflexivity; exfalso; lia.
Qed.

Lemma digit_compare (a b : nat) :
  Ascii.compare (digit a) (digit b) = Nat.compare (a mod 10) (b mod 10).
Proof.
  unfold digit.
  assert (a mod 10 < 10) as Ha by (apply Nat.mod_upper_bound; discriminate).
  assert (b mod 10 < 10) as Hb by (apply Nat.mod_upper_bound; discriminate).
  generalize dependent (b mod 10). generalize dependent (a mod 10).
  intros x Hx y Hy.
  do 10 (destruct x as [|x];
         [do 10 (destruct y as [|y]; [reflexivity|]); exfalso; lia|]).
  exfalso; lia.
Qed.

Lemma compare_cons (c1 c2 : ascii) (s1 s2 : string) :
  String.compare (String c1 s1) (String c2 s2)
  = lex (Ascii.compare c1 c2) (String.compare s1 s2).
Proof. simpl. destruct (Ascii.compare c1 c2); reflexivity. Qed.

Lemma dec_app (k n : nat) (acc r : string) :
  (dec k n acc ++ r = dec k n (acc ++ r))%string.
Proof.
  revert n acc. induction k as [|k IH]; intros n acc; cbn [dec]; [reflexivity|].
  rewrite IH. reflexivity.
Qed.

(** On numbers of at most [k] digits, the order of the padded numerals is
    the order of the numbers. *)
Lemma dec_compare (k a b : nat) (r1 r2 : string) :
  a < 10 ^ k -> b < 10 ^ k ->
  String.compare (dec k a r1) (dec k b r2)
  = lex (Nat.compare a b) (String.compare r1 r2).
Proof.
  revert a b r1 r2. induction k as [|k IH]; intros a b r1 r2 Ha Hb.
  - simpl in *. replace a with 0 by lia. replace b with 0 by lia. reflexivity.
  - cbn [dec]. rewrite IH.
    + rewrite compare_cons, digit_compare.
      rewrite <- (compare_div_mod a b), lex_assoc. reflexivity.
    + apply Nat.Div0.div_lt_upper_bound. rewrite Nat.pow_succ_r' in Ha. lia.
    + apply Nat.Div0.div_lt_upper_bound. rewrite Nat.pow_succ_r' in Hb. lia.
Qed.

Lemma zfill_compare (k a b : nat) (r1 r2 : string) :
  a < 10 ^ k -> b < 10 ^ k ->
  String.compare (zfill k a ++ r1)%string (zfill k b ++ r2)%string
  = lex (Nat.compare a b) (String.compare r1 r2).
Proof.
  intros Ha Hb. unfold zfill. rewrite !dec_app. simpl.
  apply dec_compare; assumption.
Qed.

Lemma valid_datetime_bounds (d : datetime) :
  valid_datetime d = true ->
  year d < 10 ^ 4 /\ month d < 10 ^ 2 /\ day d < 10 ^ 2
  /\ hour d < 10 ^ 2 /\ minute d < 10 ^ 2 /\ second d < 10 ^ 2.
Proof.
  unfold valid_datetime. rewrite !andb_true_iff.
  rewrite !Nat.leb_le, !Nat.ltb_lt.
  change (10 ^ 2) with 100. lia.
Qed.

(** Comparing two timestamps as strings compares the clock readings. *)
Lemma year_width_four (d : datetime) :
  four_digit_year d = true -> year_width (year d) = 4.
Proof.
  unfold four_digit_year, year_width. intros H%Nat.leb_le.
  destruct (Nat.ltb_spec (year d) 10); [lia|].
  destruct (Nat.ltb_spec (year d) 100); [lia|].
  destruct (Nat.ltb_spec (year d) 1000); [lia | reflexivity].
Qed.

Lemma strftime_compare (a b : datetime) :
  valid_datetime a = true -> valid_datetime b = true ->
  four_digit_year a = true -> four_digit_year b = true ->
  String.compare (strftime a) (strftime b) = dt_compare a b.
Proof.
  intros Ha Hb Ya Yb.
  destruct (valid_datetime_bounds a Ha) as (A1 & A2 & A3 & A4 & A5 & A6).
  destruct (valid_datetime_bounds b Hb) as (B1 & B2 & B3 & B4 & B5 & B6).
  unfold strftime, dt_compare.
  rewrite (year_width_four a Ya), (year_width_four b Yb).
  rewrite zfill_compare by assumption. f_equal.
  change (String.compare ("-" ++ ?x) ("-" ++ ?y)) with (String.compare x y).
  rewrite zfill_compare by assumption. f_equal.
  change (String.compare ("-" ++ ?x) ("-" ++ ?y)) with (String.compare x y).
  rewrite zfill_compare by assumption. f_equal.
  change (String.compare (" " ++ ?x) (" " ++ ?y)) with (String.compare x y).
  rewrite zfill_compare by assumption. f_equal.
  change (String.compare (":" ++ ?x) (":" ++ ?y)) with (String.compare x y).
  rewrite zfill_compare by assumption. f_equal.
  change (String.compare (":" ++ ?x) (":" ++ ?y)) with (String.compare x y).
  unfold zfill. rewrite dec_compare by assumption.
  destruct (Nat.compare (second a) (second b)); reflexivity.
Qed.

Lemma strftime_leb (a b : datetime) :
  valid_datetime a = true -> valid_datetime b = true ->
  four_digit_year a = true -> four_digit_year b = true ->
  String.leb (strftime a) (strftime b) = dt_leb a b.
Proof.
  intros Ha Hb Ya Yb. unfold String.leb, dt_leb.
  rewrite (strftime_compare a b Ha Hb Ya Yb). reflexivity.
Qed.

(** ** Runs of the whole script *)



(** When Submit is not pressed, or the text is empty, or the probed status
    is not ["Running"], the run fetches nothing and stores nothing; on
    Submit it shows an error message. *)
Lemma main_stop w ui s st ut t1 :
  result_of (check_api_status w s) = Return st ->
  (forall s', collect_text w ui s' = (Return ut, s', t1)) ->
  button ui = false \/ truthy ut && String.eqb st "Running" = false ->
  fetch_count (trace_of (main w ui s)) = 0
  /\ state_of (main w ui s) = mk_state (history s) st
  /\ (button ui = true -> existsb is_st_error (trace_of (main w ui s)) = true).
Proof.
  intros Hst Hut Hstop.
  destruct (main_cases w ui s)
    as [(e & t & He & _) | (st' & ut' & t1' & o2 & s2 & t2 & o & tp & tq
                            & Hst' & Hut' & Hs & Hm & Hp & Hq)];
    [congruence|].
  assert (st' = st) as -> by congruence.
  assert (ut' = ut) as ->.
  { specialize (Hut s). specialize (Hut' s). congruence. }
  rewrite Hm. unfold trace_of, state_of. simpl.
  destruct (button ui) eqn:Hb.
  - destruct Hstop as [|Hstop]; [discriminate|].
    destruct (on_submit_stop w ut (radio ui) (mk_state (history s) st) Hstop)
      as [msg Hmsg].
    rewrite Hmsg in Hs. injection Hs as <- <- <-.
    rewrite !fetch_count_app, Hp, Hq.
    split; [reflexivity|]. split; [reflexivity|]. intros _.
    rewrite !existsb_app. simpl. rewrite orb_true_r. reflexivity.
  - injection Hs as <- <- <-. rewrite !fetch_count_app, Hp, Hq.
    split; [reflexivity|]. split; [reflexivity | discriminate].
Qed.

(** On Submit with text and a running API, the state after [main] is the
    state after [recommend], and the only fetches of the run are those of
    [recommend]. *)
Lemma main_go w ui s ut t1 :
  result_of (check_api_status w s) = Return "Running" ->
  (forall s', collect_text w ui s' = (Return ut, s', t1)) ->
  button ui = true -> truthy ut = true ->
  exists o2 s2 t2 o t_pre t_post,
    recommend w (the_str ut) (radio ui) (mk_state (history s) "Running")
      = (o2, s2, t2)
    /\ main w ui s = (o, s2, t_pre ++ t2 ++ t_post)
    /\ fetch_count t_pre = 0 /\ fetch_count t_post = 0.
Proof.
  intros Hst Hut Hb Ht.
  destruct (main_cases w ui s)
    as [(e & t & He & _) | (st' & ut' & t1' & o2 & s2 & t2 & o & tp & tq
                            & Hst' & Hut' & Hs & Hm & Hp & Hq)];
    [congruence|].
  assert (st' = "Running") as -> by congruence.
  assert (ut' = ut) as ->.
  { specialize (Hut s). specialize (Hut' s). congruence. }
  rewrite Hb, on_submit_go in Hs by (assumption || reflexivity).
  exists o2, s2, t2, o, tp, tq. auto.
Qed.

Lemma collected w ui s ut :
  result_of (collect_text w ui s) = Return ut ->
  exists t1, forall s', collect_text w ui s' = (Return ut, s', t1).
Proof.
  intros H. destruct (collect_text_run w ui) as (ut' & t1 & _ & _ & _ & Hc).
  rewrite Hc in H. injection H as ->. exists t1. exact Hc.
Qed.

Lemma truthy_spec (ut : option string) :
  truthy ut = true <-> exists text, ut = Some text /\ text <> "".
Proof.
  split.
  - destruct ut as [[|c r]|]; try discriminate. intros _. eexists. split; [reflexivity|discriminate].
  - intros (text & -> & H). destruct text; [contradiction | reflexivity].
Qed.

(** * The claims *)

Lemma seq_split_at (k n : nat) :
  k < n -> seq 0 n = seq 0 k ++ k :: seq (S k) (n - S k).
Proof.
  intros H. replace n with (k + S (n - S k)) at 1 by lia.
  rewrite seq_app. reflexivity.
Qed.

Lemma read_pdf_file_fails w file e s :
  pdf_fails w file e ->
  read_pdf_file w file s =
  (Return "", s, [StError ("Error reading PDF file: " ++ str_exn e)]).
Proof.
  intros H. apply (read_pdf_file_run w file s (Raise e)).
  unfold pdf_body.
  destruct H as [Ho | r Ho Hn | r n k seg Ho Hn Hk Hpre Hbad].
  - unfold bind, lift. rewrite Ho. reflexivity.
  - unfold bind, lift. rewrite Ho, Hn. reflexivity.
  - unfold bind at 1. unfold lift at 1. rewrite Ho.
    unfold bind at 1. unfold lift at 1. rewrite Hn.
    unfold bind at 1. rewrite (seq_split_at k n Hk).
    rewrite (mapM_pages_fail r seg (seq 0 k) _ k e s); [reflexivity | | exact Hbad].
    intros i Hi. apply Hpre. apply in_seq in Hi. lia.
Qed.

Lemma read_pdf_file_ok w file r n seg s :
  PdfFileReader w file = Return r -> getNumPages r = Return n ->
  (forall i, i < n -> page_outcome r i = Return (seg i)) ->
  read_pdf_file w file s =
  (Return (String.concat nl (map seg (seq 0 n))), s, []).
Proof.
  intros Ho Hn Hp.
  apply (read_pdf_file_run w file s (Return (String.concat nl (map seg (seq 0 n))))).
  unfold pdf_body.
  unfold bind at 1. unfold lift at 1. rewrite Ho.
  unfold bind at 1. unfold lift at 1. rewrite Hn.
  unfold bind at 1. rewrite (mapM_pages_ok r seg); [reflexivity|].
  intros i Hi. apply Hp. apply in_seq in Hi. lia.
Qed.

(** C10: each of the three readers and the dispatcher [process_file]
    returns a value on every input and in every environment, whatever the
    parsing libraries raise: the readers return a string, the dispatcher a
    string or [None], and [None] exactly for the unsupported media types.
    No exception reaches the caller and the globals are untouched. *)
Theorem readers_and_dispatcher_total (w : World) (file : UploadedFile) (s : state) :
  (exists v t, read_text_file file s = (Return v, s, t)) /\
  (exists v t, read_docx_file w file s = (Return v, s, t)) /\
  (exists v t, read_pdf_file w file s = (Return v, s, t)) /\
  (exists v t, process_file w file s = (Return v, s, t)
               /\ (v = None <-> supported (type file) = false)).
Proof.
  split; [|split; [|split]].
  - destruct (read_text_file_returns file) as (v & t & _ & H). eauto.
  - destruct (read_docx_file_returns w file) as (v & t & _ & H). eauto.
  - destruct (read_pdf_file_returns w file) as (v & t & _ & H). eauto.
  - destruct (process_file_returns w file) as (v & t & _ & Hv & H). eauto.
Qed.

(** C8: when extraction fails entirely, each reader shows an error message
    and returns the empty string: the text reader on bytes that are not
    valid UTF-8, the docx reader when the container cannot be parsed, the
    PDF reader when opening the file, counting its pages or reading any
    page raises. *)
Theorem failed_extraction_reports_and_returns_empty
    (w : World) (file : UploadedFile) (s : state) :
  (utf8_valid (payload file) = false ->
   exists e, decode_utf8 (payload file) = Raise e /\
     read_text_file file s =
     (Return "", s, [StError ("Error reading text file: " ++ str_exn e)])) /\
  (forall e, Document w file = Raise e ->
     read_docx_file w file s =
     (Return "", s, [StError ("Error reading DOCX file: " ++ str_exn e)])) /\
  (forall e, pdf_fails w file e ->
     read_pdf_file w file s =
     (Return "", s, [StError ("Error reading PDF file: " ++ str_exn e)])).
Proof.
  split; [|split].
  - intros H. eexists. rewrite read_text_file_run. unfold decode_utf8.
    rewrite H. split; reflexivity.
  - intros e H. rewrite read_docx_file_run, H. reflexivity.
  - intros e H. apply read_pdf_file_fails, H.
Qed.

(** C4: on a document that parses, the extracted text is the newline-joined
    sequence of its segments in source order: the decoded text itself for
    plain text (which is the join of its lines), the paragraphs of a
    word-processor document, the pages of a PDF; and [process_file]
    hands back that text for the matching media type. *)
Theorem extracted_text_joins_segments (w : World) (file : UploadedFile) (s : state) :
  (utf8_valid (payload file) = true ->
   exists text,
     read_text_file file s = (Return text, s, [])
     /\ list_byte_of_string text = payload file
     /\ text = String.concat nl (split_nl text)
     /\ (type file = "text/plain" ->
         process_file w file s = (Return (Some text), s, []))) /\
  (forall doc, Document w file = Return doc ->
     read_docx_file w file s =
       (Return (String.concat nl (paragraphs doc)), s, [])
     /\ (type file = docx_type ->
         process_file w file s =
           (Return (Some (String.concat nl (paragraphs doc))), s, []))) /\
  (forall r n seg,
     PdfFileReader w file = Return r -> getNumPages r = Return n ->
     (forall i, i < n -> page_outcome r i = Return (seg i)) ->
     read_pdf_file w file s =
       (Return (String.concat nl (map seg (seq 0 n))), s, [])
     /\ (type file = "application/pdf" ->
         process_file w file s =
           (Return (Some (String.concat nl (map seg (seq 0 n)))), s, []))).
Proof.
  split; [|split].
  - intros H. exists (string_of_list_byte (payload file)).
    assert (Hr : read_text_file file s
                 = (Return (string_of_list_byte (payload file)), s, [])).
    { rewrite read_text_file_run. unfold decode_utf8. rewrite H. reflexivity. }
    split; [exact Hr|]. split; [apply list_byte_of_string_of_list_byte|].
    split; [symmetry; apply concat_split_nl|].
    intros Ht. apply (process_file_dispatch w file read_text_file); auto.
  - intros doc H.
    assert (Hr : read_docx_file w file s
                 = (Return (String.concat nl (paragraphs doc)), s, [])).
    { rewrite read_docx_file_run, H. reflexivity. }
    split; [exact Hr|].
    intros Ht. apply (process_file_dispatch w file (read_docx_file w)); auto.
  - intros r n seg Ho Hn Hp.
    pose proof (read_pdf_file_ok w file r n seg s Ho Hn Hp) as Hr.
    split; [exact Hr|].
    intros Ht. apply (process_file_dispatch w file (read_pdf_file w)); auto 6.
Qed.

(** C7: with an uploaded file of an unsupported declared media type,
    [process_file] shows ["Unsupported file type"] and returns [None], and
    the run of [main] sends no request to the recommendation endpoint and
    leaves the history as it was. *)
Theorem unsupported_upload_never_fetches
    (w : World) (ui : UI) (s : state) (f : UploadedFile) :
  file_uploader ui = Some f ->
  supported (type f) = false ->
  process_file w f s = (Return None, s, [StError "Unsupported file type"])
  /\ fetch_count (trace_of (main w ui s)) = 0
  /\ history (state_of (main w ui s)) = history s.
Proof.
  intros Hf Hu. split; [apply process_file_unsupported, Hu|].
  destruct (main_cases w ui s)
    as [(e & t & He & Hm & Ht & _) | (st & ut & t1 & o2 & s2 & t2 & o & tp & tq
                                   & Hst & Hut & _)].
  - rewrite Hm. split; [exact Ht | reflexivity].
  - assert (ut = None) as ->.
    { destruct (collect_text_run w ui) as (ut' & t1' & _ & Hv & _ & Hc).
      specialize (Hc s). specialize (Hut s).
      assert (ut' = ut) as -> by congruence. apply (Hv f Hf), Hu. }
    destruct (main_stop w ui s st None t1 Hst Hut) as (H1 & H2 & _);
      [right; reflexivity|].
    rewrite H2. split; [exact H1 | reflexivity].
Qed.

(** C3: a run of [main] sends a request to the recommendation endpoint
    only if the status probe returned ["Running"]; when the probe returns
    any other status, the run sends none, leaves the history unchanged
    and, on Submit, shows an error message. *)
Theorem fetch_only_when_running (w : World) (ui : UI) (s : state) :
  (fetch_count (trace_of (main w ui s)) <> 0 ->
   result_of (check_api_status w s) = Return "Running")
  /\
  (forall st,
     result_of (check_api_status w s) = Return st -> st <> "Running" ->
     fetch_count (trace_of (main w ui s)) = 0
     /\ history (state_of (main w ui s)) = history s
     /\ (button ui = true ->
         existsb is_st_error (trace_of (main w ui s)) = true)).
Proof.
  assert (forall st,
     result_of (check_api_status w s) = Return st -> st <> "Running" ->
     fetch_count (trace_of (main w ui s)) = 0
     /\ history (state_of (main w ui s)) = history s
     /\ (button ui = true ->
         existsb is_st_error (trace_of (main w ui s)) = true)) as Hother.
  { intros st Hst Hne.
    destruct (collect_text_run w ui) as (ut & t1 & _ & _ & _ & Hc).
    destruct (main_stop w ui s st ut t1 Hst Hc) as (H1 & H2 & H3).
    - right. destruct (String.eqb_spec st "Running"); [contradiction|].
      apply andb_false_r.
    - rewrite H2. auto. }
  split; [|exact Hother].
  intros Hfetch.
  destruct (main_cases w ui s)
    as [(e & t & He & Hm & Ht & _) | (st & ut & t1 & o2 & s2 & t2 & o & tp & tq
                                   & Hst & _)].
  - rewrite Hm in Hfetch. contradiction.
  - destruct (String.eqb_spec st "Running") as [->|Hne]; [exact Hst|].
    destruct (Hother st Hst Hne) as [H0 _]. contradiction.
Qed.



(** C5, as the code has it: [check_api_status] returns ["Running"] exactly
    when the GET on [/status] comes back with a status that is not a
    client or server error and a JSON object whose member [status] is the
    string ["API is running"]; it returns ["Not Available"] when the
    request raises a [RequestException] or the response is a client or
    server error; and it returns ["Unknown Status"] for any other response
    whose body is a JSON object. *)
Theorem check_api_status_cases (w : World) (s : state) :
  (result_of (check_api_status w s) = Return "Running" <->
   exists r members,
     requests_get w status_url [] = Return r
     /\ is_http_error r = false
     /\ json r = Return (JObj members)
     /\ dict_get "status" members = Some (JStr "API is running"))
  /\ (forall e,
        requests_get w status_url [] = Raise e ->
        isinstance e RequestException = true ->
        result_of (check_api_status w s) = Return "Not Available")
  /\ (forall r,
        requests_get w status_url [] = Return r ->
        is_http_error r = true ->
        result_of (check_api_status w s) = Return "Not Available")
  /\ (forall r members,
        requests_get w status_url [] = Return r ->
        is_http_error r = false ->
        json r = Return (JObj members) ->
        dict_get "status" members <> Some (JStr "API is running") ->
        result_of (check_api_status w s) = Return "Unknown Status").
Proof.
  unfold check_api_status, http_get, raise_for_status, json_get_status_is_running.
  fold status_url. unfold_monad. unfold result_of.
  split; [|split; [|split]].
  - split.
    + destruct (requests_get w status_url []) as [r|e] eqn:Hg;
        [|destruct (isinstance e RequestException); simpl; discriminate].
      destruct (is_http_error r) eqn:Hh; [simpl; discriminate|].
      destruct (json r) as [j|e] eqn:Hj;
        [|destruct (isinstance e RequestException); simpl; discriminate].
      destruct j; try (simpl; discriminate).
      destruct (dict_get "status" members) as [[]|] eqn:Hd;
        try (simpl; discriminate).
      destruct (String.eqb_spec s0 "API is running") as [->|];
        [|simpl; discriminate].
      intros _. exists r, members. auto.
    + intros (r & members & -> & -> & -> & ->). reflexivity.
  - intros e -> He. rewrite He. reflexivity.
  - intros r -> ->. reflexivity.
  - intros r members -> -> -> Hne.
    destruct (dict_get "status" members) as [[]|]; try reflexivity.
    destruct (String.eqb_spec s0 "API is running") as [->|]; [congruence|].
    reflexivity.
Qed.

(** C6, as the code has it: on Submit with text, a running API and one of
    the two options selected, a request that comes back with a response
    that is not a client or server error, whose body parses as JSON and
    which the image widget accepts, makes the run append exactly one
    entry, holding the text and the formatted clock reading.  That
    timestamp is not smaller than the one of the previous entry whenever
    the previous entry was stamped at a clock reading that is not later,
    both readings having a four-digit year. *)
Theorem rendered_reply_appends_one_entry
    (w : World) (ui : UI) (s : state) (text : string) (b : bool)
    (r : Response) (j : jvalue) :
  result_of (check_api_status w s) = Return "Running" ->
  button ui = true ->
  result_of (collect_text w ui s) = Return (Some text) ->
  text <> "" ->
  media_flag (radio ui) = Some b ->
  requests_get w fetch_url (fetch_params text b) = Return r ->
  is_http_error r = false ->
  json r = Return j ->
  st_image_raises w j = None ->
  history (state_of (main w ui s)) = history s ++ [entry text (datetime_now w)]
  /\ fetch_count (trace_of (main w ui s)) = 1
  /\ entry text (datetime_now w) !! "text" = Some text
  /\ entry text (datetime_now w) !! "timestamp" = Some (strftime (datetime_now w))
  /\ (forall prev d,
        last (history s) = Some prev ->
        prev !! "timestamp" = Some (strftime d) ->
        valid_datetime d = true -> valid_datetime (datetime_now w) = true ->
        four_digit_year d = true -> four_digit_year (datetime_now w) = true ->
        dt_leb d (datetime_now w) = true ->
        String.leb (strftime d) (strftime (datetime_now w)) = true).
Proof.
  intros Hst Hbtn Hcol Htext Hb Hg _ Hj Hi.
  destruct (collected w ui s _ Hcol) as [t1 Hut].
  assert (truthy (Some text) = true) as Htr by (apply truthy_spec; eauto).
  destruct (main_go w ui s (Some text) t1 Hst Hut Hbtn Htr)
    as (o2 & s2 & t2 & o & tp & tq & Hrec & Hm & Hp & Hq).
  simpl in Hrec.
  destruct (recommend_fetch w text (radio ui) b
              (mk_state (history s) "Running") Hb)
    as (o3 & s3 & t3 & Hrec' & Hone & _ & Hcase).
  rewrite Hrec in Hrec'. injection Hrec' as -> -> ->.
  rewrite Hg in Hcase. destruct Hcase as [_ Hcase].
  rewrite Hj, Hi in Hcase. destruct Hcase as [_ ->].
  rewrite Hm. unfold state_of, trace_of. simpl.
  rewrite !fetch_count_app, Hp, Hq, Hone.
  split; [reflexivity|]. split; [reflexivity|].
  split; [unfold entry; rewrite lookup_insert_ne by discriminate;
          apply lookup_singleton_eq|].
  split; [unfold entry; apply lookup_insert_eq|].
  intros prev d _ _ Hd Hnow Yd Ynow Hle.
  rewrite strftime_leb by assumption. exact Hle.
Qed.

(** C1: a reply with an HTTP error status is a failed service call, yet
    [main] stores a history entry for it.  With a running API, the text
    ["a dog"], the stock option and a 503 reply whose body the image
    widget accepts, the run shows no error message, returns normally and
    leaves one entry in a history that was empty. *)
Theorem error_status_reply_grows_history :
  let w := sample_world running_reply unavailable_reply in
  let run := main w (typed "a dog" "Stock Images") initial_state in
  requests_get w fetch_url (fetch_params "a dog" false)
  = Return (mk_Response 503 (Return (JStr "https://example.com/img1.png")))
  /\ is_http_error
       (mk_Response 503 (Return (JStr "https://example.com/img1.png"))) = true
  /\ history initial_state = []
  /\ result_of run = Return tt
  /\ existsb is_st_error (trace_of run) = false
  /\ history (state_of run) = [entry "a dog" sample_clock].
Proof. vm_compute. repeat split; reflexivity. Qed.


(** C2: an HTTP 500 reply from the recommendation endpoint is not reported
    by [get_image_recommendation], which never checks the status code: no
    error message is shown, the response is returned, and with a body the
    image widget accepts the run appends a history entry. *)
Theorem server_error_is_returned_and_stored :
  let w := sample_world running_reply server_error_reply in
  let run := main w (typed "a cat" "AI") initial_state in
  server_error_reply = Return (mk_Response 500 (Return (JArr [JStr "img1.png"])))
  /\ is_http_error (mk_Response 500 (Return (JArr [JStr "img1.png"]))) = true
  /\ get_image_recommendation w "a cat" true initial_state
     = (Return (Some (mk_Response 500 (Return (JArr [JStr "img1.png"])))),
        initial_state,
        [HttpGet fetch_url (fetch_params "a cat" true);
         Stdout (PrResponse (mk_Response 500 (Return (JArr [JStr "img1.png"]))))])
  /\ existsb is_st_error (trace_of run) = false
  /\ result_of run = Return tt
  /\ history (state_of run) = [entry "a cat" sample_clock].
Proof. vm_compute. repeat split; reflexivity. Qed.

(** ** Concrete runs *)

(** C5 as stated fails: a status reply that is a successful response
    carrying a JSON array makes [check_api_status] raise instead of
    returning a status; and on an unreachable host the string returned is
    ["Not Available"]. *)
Lemma array_status_reply_raises :
  let w := sample_world array_status_reply image_reply in
  requests_get w status_url [] = Return (mk_Response 200 (Return (JArr [])))
  /\ is_http_error (mk_Response 200 (Return (JArr []))) = false
  /\ result_of (check_api_status w initial_state)
     = Raise (mk_exn AttributeError "object has no attribute 'get'")
  /\ result_of (check_api_status (sample_world unreachable image_reply) initial_state)
     = Return "Not Available".
Proof. vm_compute. repeat split; reflexivity. Qed.

(** C6 as stated fails twice: a request that comes back with a 200
    response whose body is not JSON appends nothing, and a successful run
    whose clock reads earlier than the stamp of the last entry appends an
    entry with a smaller timestamp. *)
Lemma reply_without_json_appends_nothing :
  (let w := sample_world running_reply not_json_reply in
   result_of (get_image_recommendation w "a cat" true initial_state)
   = Return (Some (mk_Response 200
               (Raise (mk_exn InvalidJSONError "Expecting value"))))
   /\ fetch_count (trace_of (main w (typed "a cat" "AI") initial_state)) = 1
   /\ history (state_of (main w (typed "a cat" "AI") initial_state)) = [])
  /\
  (let s1 := mk_state [entry "a cat" sample_clock] "Unknown" in
   let s2 := state_of (main (set_clock earlier_clock healthy_world)
                            (typed "a dog" "AI") s1) in
   history s2 = [entry "a cat" sample_clock; entry "a dog" earlier_clock]
   /\ String.leb (strftime sample_clock) (strftime earlier_clock) = false).
Proof. vm_compute. repeat split; reflexivity. Qed.


(** ** Instances *)


Lemma fetch_only_when_running_witness :
  result_of (check_api_status (sample_world unreachable image_reply) initial_state)
  = Return "Not Available"
  /\ "Not Available" <> "Running"
  /\ fetch_count (trace_of (main (sample_world unreachable image_reply)
                                 (typed "a cat" "AI") initial_state)) = 0.
Proof.
  split; [reflexivity|]. split; [discriminate|].
  refine (proj1 (proj2 (fetch_only_when_running
                          (sample_world unreachable image_reply)
                          (typed "a cat" "AI") initial_state)
                   "Not Available" eq_refl _)).
  discriminate.
Defined.

Lemma unsupported_upload_never_fetches_witness :
  file_uploader (uploaded "image/png" [x89; x50] "AI")
  = Some (mk_UploadedFile "image/png" [x89; x50])
  /\ supported "image/png" = false
  /\ fetch_count (trace_of (main healthy_world (uploaded "image/png" [x89; x50] "AI")
                                 initial_state)) = 0.
Proof.
  split; [reflexivity|]. split; [reflexivity|].
  exact (proj1 (proj2 (unsupported_upload_never_fetches healthy_world
                         (uploaded "image/png" [x89; x50] "AI") initial_state
                         (mk_UploadedFile "image/png" [x89; x50])
                         eq_refl eq_refl))).
Defined.

Lemma failed_extraction_reports_and_returns_empty_witness :
  utf8_valid [xff; xfe] = false
  /\ (exists e, decode_utf8 [xff; xfe] = Raise e /\
        read_text_file (mk_UploadedFile "text/plain" [xff; xfe]) initial_state
        = (Return "", initial_state,
           [StError ("Error reading text file: " ++ str_exn e)]))
  /\ read_docx_file healthy_world (mk_UploadedFile docx_type []) initial_state
     = (Return "", initial_state,
        [StError "Error reading DOCX file: Package not found"])
  /\ read_pdf_file healthy_world (mk_UploadedFile "application/pdf" [x25])
       initial_state
     = (Return "", initial_state, [StError "Error reading PDF file: /Contents"]).
Proof.
  split; [reflexivity|]. split; [|split].
  - exact (proj1 (failed_extraction_reports_and_returns_empty healthy_world
                    (mk_UploadedFile "text/plain" [xff; xfe]) initial_state)
             eq_refl).
  - exact (proj1 (proj2 (failed_extraction_reports_and_returns_empty healthy_world
                           (mk_UploadedFile docx_type []) initial_state))
             (mk_exn OtherException "Package not found") eq_refl).
  - refine (proj2 (proj2 (failed_extraction_reports_and_returns_empty healthy_world
                            (mk_UploadedFile "application/pdf" [x25]) initial_state))
              (mk_exn KeyError "/Contents") _).
    apply (pdf_page_fails _ _ _ (sample_pdf true) 2 1 (fun _ => "first page"));
      [reflexivity | reflexivity | lia | | reflexivity].
    intros i Hi. destruct i; [reflexivity | lia].
Defined.

Lemma extracted_text_joins_segments_witness :
  utf8_valid (list_byte_of_string "hello
world") = true
  /\ (exists text,
        read_text_file (mk_UploadedFile "text/plain" (list_byte_of_string "hello
world")) initial_state = (Return text, initial_state, [])
        /\ text = String.concat nl (split_nl text))
  /\ read_docx_file healthy_world (mk_UploadedFile docx_type [x50; x4b]) initial_state
     = (Return (String.concat nl ["Title"; "Body text"]), initial_state, [])
  /\ read_pdf_file healthy_world (mk_UploadedFile "application/pdf" [x25; x50])
       initial_state
     = (Return (String.concat nl ["first page"; "second page"]), initial_state, []).
Proof.
  split; [reflexivity|]. split; [|split].
  - destruct (proj1 (extracted_text_joins_segments healthy_world
                       (mk_UploadedFile "text/plain" (list_byte_of_string "hello
world")) initial_state) eq_refl) as (text & H1 & _ & H2 & _).
    exists text. split; assumption.
  - exact (proj1 (proj1 (proj2 (extracted_text_joins_segments healthy_world
                           (mk_UploadedFile docx_type [x50; x4b]) initial_state))
             (mk_Docx ["Title"; "Body text"]) eq_refl)).
  - refine (proj1 (proj2 (proj2 (extracted_text_joins_segments healthy_world
                            (mk_UploadedFile "application/pdf" [x25; x50])
                            initial_state))
              (sample_pdf false) 2
              (fun i => match i with 0 => "first page" | _ => "second page" end)
              eq_refl eq_refl _)).
    intros i Hi. destruct i as [|[|i]]; [reflexivity | reflexivity | lia].
Defined.



Lemma check_api_status_cases_witness :
  requests_get (sample_world unreachable image_reply) status_url [] = unreachable
  /\ result_of (check_api_status (sample_world unreachable image_reply) initial_state)
     = Return "Not Available"
  /\ result_of (check_api_status healthy_world initial_state) = Return "Running".
Proof.
  split; [reflexivity|]. split.
  - exact (proj1 (proj2 (check_api_status_cases
                           (sample_world unreachable image_reply) initial_state))
             (mk_exn ConnectionError "Max retries exceeded") eq_refl eq_refl).
  - apply (proj1 (check_api_status_cases healthy_world initial_state)).
    exists (mk_Response 200 (Return (JObj [("status", JStr "API is running")]))),
      [("status", JStr "API is running")].
    repeat split; reflexivity.
Defined.

Lemma rendered_reply_appends_one_entry_witness :
  history (state_of (main healthy_world (typed "a cat" "AI") one_entry_state))
  = [entry "a dog" earlier_clock; entry "a cat" sample_clock]
  /\ String.leb (strftime earlier_clock) (strftime sample_clock) = true.
Proof.
  destruct (rendered_reply_appends_one_entry healthy_world (typed "a cat" "AI")
              one_entry_state "a cat" true
              (mk_Response 200 (Return (JArr [JStr "img1.png"])))
              (JArr [JStr "img1.png"]))
    as (H1 & _ & _ & _ & H5); try reflexivity; [discriminate|].
  split; [exact H1|].
  apply (H5 (entry "a dog" earlier_clock) earlier_clock); reflexivity.
Defined.

(** * Further properties of the script *)

(** ** Quiet computations *)

Section Quiet.

Variable P : event -> bool.

Lemma quiet_ret {A} (a : A) : quiet P (ret a).
Proof. intros s. split; reflexivity. Qed.

Lemma quiet_raise {A} (e : exn) : quiet P (@raise A e).
Proof. intros s. split; reflexivity. Qed.

Lemma quiet_lift {A} (o : outcome A) : quiet P (lift o).
Proof. intros s. split; reflexivity. Qed.

Lemma quiet_emit (e : event) : P e = false -> quiet P (emit e).
Proof.
  intros He s. split; [reflexivity|].
  unfold emit, trace_of. simpl. rewrite He. reflexivity.
Qed.

Lemma quiet_bind {A B} (m : M A) (f : A -> M B) :
  quiet P m -> (forall a, quiet P (f a)) -> quiet P (bind m f).
Proof.
  intros Hm Hf s. unfold bind.
  destruct (Hm s) as [Hs Ht]. destruct (m s) as [[o s1] t1].
  unfold state_of, trace_of in Hs, Ht. simpl in Hs, Ht. subst s1.
  destruct o as [a|e]; [|split; [reflexivity | exact Ht]].
  destruct (Hf a s) as [Hs2 Ht2]. destruct (f a s) as [[o2 s2] t2].
  unfold state_of, trace_of in *. simpl in *. subst s2.
  split; [reflexivity|]. rewrite List.filter_app, Ht, Ht2. reflexivity.
Qed.

Lemma quiet_for_each {A} (l : list A) (body : A -> M unit) :
  (forall x, quiet P (body x)) -> quiet P (for_each l body).
Proof.
  intros Hb. induction l as [|x l IH]; simpl.
  - apply quiet_ret.
  - apply quiet_bind; [apply Hb | intros _; exact IH].
Qed.

End Quiet.

Ltac quiet_step :=
  match goal with
  | |- quiet _ (bind _ _) => apply quiet_bind; [|intros ?]
  | |- quiet _ (for_each _ _) => apply quiet_for_each; intros ?
  | |- quiet _ (ret _) => apply quiet_ret
  | |- quiet _ (raise _) => apply quiet_raise
  | |- quiet _ (lift _) => apply quiet_lift
  | |- quiet _ (emit _) => apply quiet_emit; reflexivity
  | |- quiet _ (st_error _) => apply quiet_emit; reflexivity
  | |- quiet _ (st_write _) => apply quiet_emit; reflexivity
  | |- quiet _ (if ?b then _ else _) => destruct b
  | |- quiet _ (match ?x with _ => _ end) => destruct x
  end.

(** The History tab only writes headers and lines and shows media: it
    emits no event of any other kind, whatever the history holds. *)
Lemma quiet_tab_history (w : World) (P : event -> bool) :
  (forall x, P (StHeader x) = false) -> (forall x, P (StWrite x) = false) ->
  (forall x, P (StImage x) = false) -> (forall x, P (StVideo x) = false) ->
  quiet P (tab_history w).
Proof.
  intros H1 H2 H3 H4. unfold tab_history.
  apply quiet_bind; [apply quiet_emit, H1 | intros _].
  apply quiet_bind; [apply quiet_emit, H2 | intros _].
  apply quiet_bind; [intros s; split; reflexivity | intros h].
  destruct h as [|r h]; [apply quiet_emit, H2|].
  apply quiet_for_each. intros result.
  unfold dict_item, st_image, st_video, st_write.
  repeat first [ apply quiet_emit; solve [auto] | quiet_step ].
Qed.

Lemma http_requests_app (t1 t2 : list event) :
  http_requests (t1 ++ t2) = http_requests t1 ++ http_requests t2.
Proof. apply List.filter_app. Qed.

Lemma http_requests_errors (t : list event) :
  forallb is_st_error t = true -> http_requests t = [].
Proof.
  induction t as [|e t IH]; [reflexivity|]. simpl.
  intros [He Ht]%andb_true_iff. destruct e; try discriminate.
  exact (IH Ht).
Qed.

(** ** The recommendation branch and the script, in full *)

Lemma get_image_recommendation_fail_prefix (w : World) q b e s :
  requests_get w fetch_url (fetch_params q b) = Raise e ->
  exists prefix,
    In prefix fetch_error_prefixes /\
    get_image_recommendation w q b s =
    (Return None, s,
     [HttpGet fetch_url (fetch_params q b); StError (prefix ++ str_exn e)]).
Proof.
  intros H. unfold get_image_recommendation, http_get. unfold_monad.
  fold fetch_url. fold (fetch_params q b). rewrite H.
  unfold fetch_error_prefixes.
  destruct (isinstance e HTTPError);
    [eexists; split; [|reflexivity]; simpl; auto|].
  destruct (isinstance e ConnectionError);
    [eexists; split; [|reflexivity]; simpl; auto|].
  destruct (isinstance e ReqTimeout);
    [eexists; split; [|reflexivity]; simpl; auto|].
  destruct (isinstance e RequestException);
    eexists; (split; [|reflexivity]); simpl; auto 6.
Qed.

(** Everything [recommend] does, for any media-type selection. *)
Lemma recommend_run (w : World) (text m : string) (s : state) :
  exists o s' t,
    recommend w text m s = (o, s', t)
    /\ api_status s' = api_status s
    /\ List.filter is_header t = []
    /\ List.filter is_submit_message t = []
    /\ match media_flag m with
       | None =>
           t = [] /\ o = Return tt
           /\ history s' = history s ++ [entry text (datetime_now w)]
       | Some b =>
           http_requests t = [HttpGet fetch_url (fetch_params text b)]
           /\ match requests_get w fetch_url (fetch_params text b) with
              | Raise _ =>
                  o = Raise (mk_exn AttributeError
                               "'NoneType' object has no attribute 'json'")
                  /\ s' = s
                  /\ existsb is_st_error t = true
                  /\ List.filter is_media t = []
              | Return r =>
                  existsb is_st_error t = false /\
                  match json r with
                  | Raise e => o = Raise e /\ s' = s /\ List.filter is_media t = []
                  | Return j =>
                      List.filter is_media t = [StImage j] /\
                      match st_image_raises w j with
                      | Some e => o = Raise e /\ s' = s
                      | None =>
                          o = Return tt /\
                          history s' = history s ++ [entry text (datetime_now w)]
                      end
                  end
              end
       end.
Proof.
  pose proof (media_flag_cases m) as Hm.
  destruct (media_flag m) as [b|] eqn:Hflag.
  2:{ rewrite (recommend_other w text m s Hflag).
      do 3 eexists. split; [reflexivity|]. simpl. auto 10. }
  destruct (requests_get w fetch_url (fetch_params text b)) as [r|e] eqn:Hg.
  - pose proof (fun s0 => get_image_recommendation_ok w _ _ _ s0 Hg) as Hf.
    destruct (json r) as [j|e] eqn:Hj;
      [destruct (st_image_raises w j) as [e|] eqn:Hi|].
    all: destruct b; subst m; unfold recommend;
      change (str_in "AI" ["AI"]) with true;
      change (str_in "AI" ["Stock Images"]) with false;
      change (str_in "Stock Images" ["AI"]) with false;
      change (str_in "Stock Images" ["Stock Images"]) with true;
      cbv iota;
      unfold bind, st_write, emit, ret, history_append;
      rewrite Hf; rewrite ?call_json_some, ?Hj, ?st_image_run, ?Hi;
      do 3 eexists; (split; [reflexivity|]);
      simpl; auto 10.
  - destruct (get_image_recommendation_fail_prefix w _ _ _ s Hg)
      as (prefix & Hp & Hf).
    unfold fetch_error_prefixes in Hp. simpl in Hp.
    destruct Hp as [<-|[<-|[<-|[<-|[<-|[]]]]]].
    all: destruct b; subst m; unfold recommend;
      change (str_in "AI" ["AI"]) with true;
      change (str_in "AI" ["Stock Images"]) with false;
      change (str_in "Stock Images" ["AI"]) with false;
      change (str_in "Stock Images" ["Stock Images"]) with true;
      cbv iota;
      unfold bind, st_write, emit, ret, history_append;
      rewrite Hf; unfold call_json, raise;
      do 3 eexists; (split; [reflexivity|]);
      simpl; auto 10.
Qed.

(** Every run of [main], event by event around the Submit handler. *)
Lemma main_shape (w : World) (ui : UI) (s : state) :
  (exists e,
      (forall s', check_api_status w s' = (Raise e, s', [HttpGet status_url []]))
      /\ main w ui s = (Raise e, s, [HttpGet status_url []]))
  \/
  (exists st ut t1 o2 s2 t2,
      (forall s', check_api_status w s' = (Return st, s', [HttpGet status_url []]))
      /\ (forall s', collect_text w ui s' = (Return ut, s', t1))
      /\ forallb is_st_error t1 = true
      /\ (if button ui then on_submit w ut (radio ui) else ret tt)
           (mk_state (history s) st) = (o2, s2, t2)
      /\ main w ui s =
         match o2 with
         | Return _ =>
             (result_of (tab_history w s2), s2,
              [HttpGet status_url []] ++ page_head st ++ t1 ++ t2
              ++ trace_of (tab_history w s2))
         | Raise e =>
             (Raise e, s2, [HttpGet status_url []] ++ page_head st ++ t1 ++ t2)
         end).
Proof.
  destruct (check_api_status_run w) as [o0 H0]. destruct o0 as [st|e].
  2:{ left. exists e. split; [exact H0|]. apply main_status_raises, H0. }
  right.
  destruct (collect_text_run w ui) as (ut & t1 & Ht1 & _ & _ & Hc).
  destruct ((if button ui then on_submit w ut (radio ui) else ret tt)
              (mk_state (history s) st)) as [[o2 s2] t2] eqn:Hs.
  exists st, ut, t1, o2, s2, t2.
  split; [exact H0|]. split; [exact Hc|]. split; [exact Ht1|].
  split; [exact Hs|].
  unfold main. unfold bind at 1. rewrite H0.
  unfold bind at 1. unfold set_api_status at 1.
  unfold bind at 1. unfold emit at 1.
  unfold bind at 1. unfold tab_introduction at 1, bind at 1, emit at 1, st_write, emit.
  unfold bind at 1. unfold tab_demo at 1. unfold bind at 1. unfold emit at 1.
  unfold bind at 1. unfold get_api_status at 1. cbv beta iota.
  unfold bind at 1. unfold st_write at 1, emit at 1.
  unfold bind at 1. simpl history. simpl api_status. rewrite Hc. rewrite Hs.
  destruct o2 as [[]|e].
  - destruct (inert_tab_history w s2) as [H1 _].
    destruct (tab_history w s2) as [[o3 s3] t3].
    unfold state_of, trace_of, result_of in *. simpl in H1. subst s3.
    simpl. rewrite <- ?app_assoc. reflexivity.
  - simpl. rewrite <- ?app_assoc, ?app_nil_r. reflexivity.
Qed.

Lemma filter_errors_only (P : event -> bool) (t : list event) :
  (forall m, P (StError m) = false) ->
  forallb is_st_error t = true -> List.filter P t = [].
Proof.
  intros HP. induction t as [|e t IH]; [reflexivity|]. simpl.
  intros [He Ht]%andb_true_iff. destruct e; try discriminate.
  rewrite HP. exact (IH Ht).
Qed.

(** What [collect_text] shows is never one of the Submit messages. *)
Lemma collect_text_messages (w : World) (ui : UI) :
  exists ut t1,
    (forall s, collect_text w ui s = (Return ut, s, t1))
    /\ forallb is_st_error t1 = true
    /\ List.filter is_submit_message t1 = [].
Proof.
  unfold collect_text. destruct (file_uploader ui) as [f|];
    [|exists (Some (text_area ui)), []; repeat split].
  destruct (supported (type f)) eqn:Hsup.
  2:{ exists None, [StError "Unsupported file type"].
      split; [intros s; apply process_file_unsupported, Hsup|].
      split; reflexivity. }
  assert (exists (reader : UploadedFile -> M string),
            (type f = "text/plain" /\ reader = read_text_file
             \/ type f = docx_type /\ reader = read_docx_file w
             \/ type f = "application/pdf" /\ reader = read_pdf_file w)
            /\ exists v t, (forall s, reader f s = (Return v, s, t))
                 /\ forallb is_st_error t = true
                 /\ List.filter is_submit_message t = [])
    as (reader & Hd & v & t & Hr & He & Hm).
  { unfold supported, str_in in Hsup. simpl in Hsup.
    destruct (String.eqb_spec (type f) "text/plain") as [E1|_].
    { exists read_text_file. split; [auto|].
      destruct (decode_utf8 (payload f)) as [v|e] eqn:Hdec.
      - exists v, []. split; [intros s; rewrite read_text_file_run, Hdec; reflexivity|].
        split; reflexivity.
      - eexists "", _. split; [intros s; rewrite read_text_file_run, Hdec; reflexivity|].
        split; reflexivity. }
    destruct (String.eqb_spec (type f) docx_type) as [E2|_].
    { exists (read_docx_file w). split; [auto|].
      destruct (Document w f) as [doc|e] eqn:Hdoc.
      - eexists _, []. split; [intros s; rewrite read_docx_file_run, Hdoc; reflexivity|].
        split; reflexivity.
      - eexists "", _. split; [intros s; rewrite read_docx_file_run, Hdoc; reflexivity|].
        split; reflexivity. }
    destruct (String.eqb_spec (type f) "application/pdf") as [E3|_];
      [|discriminate].
    exists (read_pdf_file w). split; [auto|].
    destruct (pdf_body_run w f) as [o Ho]. destruct o as [v|e].
    - exists v, []. split; [intros s; rewrite (read_pdf_file_run w f s _ (Ho s)); reflexivity|].
      split; reflexivity.
    - eexists "", _. split; [intros s; rewrite (read_pdf_file_run w f s _ (Ho s)); reflexivity|].
      split; reflexivity. }
  exists (Some v), t. split; [|split; assumption].
  intros s. apply (process_file_dispatch w f reader); auto.
Qed.

Lemma on_submit_no_text (w : World) ut m s :
  truthy ut = false ->
  on_submit w ut m s = (Return tt, s, [StError no_text_message]).
Proof.
  intros H. unfold on_submit, bind, get_api_status. rewrite H. reflexivity.
Qed.

Lemma on_submit_not_running (w : World) ut m s :
  truthy ut = true -> api_status s <> "Running" ->
  on_submit w ut m s = (Return tt, s, [StError not_running_message]).
Proof.
  intros H Hs. unfold on_submit, bind, get_api_status. rewrite H.
  destruct (String.eqb_spec (api_status s) "Running"); [contradiction|].
  reflexivity.
Qed.

Lemma probe_result (w : World) (s : state) o :
  result_of (check_api_status w s) = o ->
  forall s', check_api_status w s' = (o, s', [HttpGet status_url []]).
Proof.
  intros H. destruct (check_api_status_run w) as [o' Ho].
  rewrite Ho in H. unfold result_of in H. simpl in H. subst o'. exact Ho.
Qed.

(** ** The recommendation client, beyond the claims *)

(** X1: [get_image_recommendation] never raises and never touches the
    globals. Each call sends exactly one request, a GET on
    [/recommend_images] carrying the query text and the flag as given. It
    returns the response when [requests.get] returned one, showing no
    error; it returns [None] when [requests.get] raised, showing exactly
    one error message that ends with the text of the exception. *)
Theorem fetch_returns_after_one_request
    (w : World) (query : string) (use_ai : bool) (s : state) :
  exists v t,
    get_image_recommendation w query use_ai s = (Return v, s, t)
    /\ http_requests t = [HttpGet fetch_url (fetch_params query use_ai)]
    /\ match requests_get w fetch_url (fetch_params query use_ai) with
       | Return r => v = Some r /\ List.filter is_st_error t = []
       | Raise e =>
           v = None /\
           exists prefix,
             In prefix fetch_error_prefixes /\
             List.filter is_st_error t = [StError (prefix ++ str_exn e)]
       end.
Proof.
  destruct (requests_get w fetch_url (fetch_params query use_ai)) as [r|e] eqn:Hg.
  - rewrite (get_image_recommendation_ok w _ _ _ s Hg).
    do 2 eexists. split; [reflexivity|]. split; [reflexivity|]. split; reflexivity.
  - destruct (get_image_recommendation_fail_prefix w _ _ _ s Hg)
      as (prefix & Hp & ->).
    do 2 eexists. split; [reflexivity|]. split; [reflexivity|].
    split; [reflexivity|]. exists prefix. split; [exact Hp | reflexivity].
Qed.

(** X2: the message shown for a failed request is chosen by the first
    handler whose class the exception is an instance of.  An HTTP error is
    reported as such; a connection error, and a connect timeout too since
    it is both a connection error and a timeout, gets the connection
    message; the other timeouts get the timeout message; any other
    request exception the request message; everything else the
    unexpected-error message. *)
Theorem fetch_error_message_follows_first_handler
    (w : World) (query : string) (use_ai : bool) (s : state) (e : exn) :
  requests_get w fetch_url (fetch_params query use_ai) = Raise e ->
  get_image_recommendation w query use_ai s =
  (Return None, s,
   [HttpGet fetch_url (fetch_params query use_ai);
    StError (match exn_cls e with
             | HTTPError => "HTTP error occurred: "
             | ConnectionError | ConnectTimeout => "Connection error occurred: "
             | ReadTimeout | ReqTimeout => "Timeout error occurred: "
             | InvalidJSONError | RequestException => "Request error occurred: "
             | _ => "An unexpected error occurred: "
             end ++ str_exn e)]).
Proof.
  intros H. unfold get_image_recommendation, http_get. unfold_monad.
  fold fetch_url. fold (fetch_params query use_ai). rewrite H.
  destruct e as [c m]. destruct c; reflexivity.
Qed.

(** ** The status probe, beyond the claims *)

(** X3: [check_api_status] sends exactly one request, a GET on [/status]
    without parameters, shows nothing and leaves the globals alone.  When
    it returns, the status is one of ["Running"], ["Unknown Status"] and
    ["Not Available"]; when it raises, the exception is not a
    [RequestException]. *)
Theorem status_probe_is_silent_and_three_valued (w : World) (s : state) :
  exists o,
    check_api_status w s = (o, s, [HttpGet status_url []])
    /\ match o with
       | Return st =>
           st = "Running" \/ st = "Unknown Status" \/ st = "Not Available"
       | Raise e => isinstance e RequestException = false
       end.
Proof.
  unfold check_api_status, http_get, raise_for_status, json_get_status_is_running.
  fold status_url. unfold_monad.
  destruct (requests_get w status_url []) as [r|e];
    [|destruct (isinstance e RequestException) eqn:He; eexists;
      (split; [reflexivity|]); simpl; auto].
  destruct (is_http_error r); [eexists; (split; [reflexivity|]); simpl; auto|].
  destruct (json r) as [j|e];
    [|destruct (isinstance e RequestException) eqn:He; eexists;
      (split; [reflexivity|]); simpl; auto].
  destruct j; try (eexists; (split; [reflexivity|]); reflexivity).
  destruct (dict_get "status" members) as [[]|];
    try (eexists; (split; [reflexivity|]); simpl; auto).
  destruct (String.eqb s0 "API is running");
    eexists; (split; [reflexivity|]); simpl; auto.
Qed.

(** X4: [check_api_status] raises [e] exactly when [e] is not a
    [RequestException] and either [requests.get] raised it, or the
    response had no error status and [.json()] raised it, or the body
    parsed to something that is not a JSON object and [e] is the
    [AttributeError] of the missing [.get]. *)
Theorem status_probe_raises_iff (w : World) (s : state) (e : exn) :
  result_of (check_api_status w s) = Raise e <->
  isinstance e RequestException = false /\
  (requests_get w status_url [] = Raise e
   \/ exists r,
        requests_get w status_url [] = Return r /\ is_http_error r = false /\
        (json r = Raise e
         \/ exists j, json r = Return j /\ (forall members, j <> JObj members)
             /\ e = mk_exn AttributeError "object has no attribute 'get'")).
Proof.
  unfold check_api_status, http_get, raise_for_status, json_get_status_is_running.
  fold status_url. unfold_monad. unfold result_of.
  destruct (requests_get w status_url []) as [r|e0] eqn:Hg.
  2:{ destruct (isinstance e0 RequestException) eqn:He; cbn -[isinstance]; split.
      - discriminate.
      - intros [Hn [[= ->]|(r & [=] & _)]]. congruence.
      - intros [= ->]. auto.
      - intros [Hn [[= ->]|(r & [=] & _)]]. reflexivity. }
  destruct (is_http_error r) eqn:Hh.
  { cbn -[isinstance]. split; [discriminate|].
    intros [_ [[=]|(r' & [= <-] & Hh' & _)]]. congruence. }
  destruct (json r) as [j|e0] eqn:Hj.
  2:{ destruct (isinstance e0 RequestException) eqn:He; cbn -[isinstance]; split.
      - discriminate.
      - intros [Hn [[=]|(r' & [= <-] & _ & [Hj'|(j & Hj' & _)])]]; congruence.
      - intros [= ->]. split; [exact He|]. right. exists r. auto.
      - intros [Hn [[=]|(r' & [= <-] & _ & [Hj'|(j & Hj' & _)])]]; congruence. }
  destruct j; simpl;
    try (split;
         [ intros [= <-]; split; [reflexivity|]; right; exists r;
           split; [reflexivity|]; split; [exact Hh|]; right;
           eexists; split; [exact Hj|]; split; [discriminate | reflexivity]
         | intros [Hn [[=]|(r' & [= <-] & _ & [Hj'|(j & Hj' & Hno & ->)])]];
           [congruence | reflexivity] ]).
  split.
  - intros H. exfalso.
    destruct (match dict_get "status" members with
              | Some (JStr v) => String.eqb v "API is running"
              | _ => false
              end); discriminate.
  - intros [Hn [[=]|(r' & [= <-] & _ & [Hj'|(j & Hj' & Hno & ->)])]];
      [congruence|].
    exfalso. apply (Hno members). congruence.
Qed.

(** ** The page script, beyond the claims *)

(** The four ways the Submit button is handled. *)
Lemma submit_cases (w : World) (ui : UI) (ut : option string) (s1 : state) o2 s2 t2 :
  (if button ui then on_submit w ut (radio ui) else ret tt) s1 = (o2, s2, t2) ->
  (button ui = false /\ o2 = Return tt /\ s2 = s1 /\ t2 = [])
  \/ (button ui = true /\ truthy ut = false
      /\ o2 = Return tt /\ s2 = s1 /\ t2 = [StError no_text_message])
  \/ (button ui = true /\ truthy ut = true /\ api_status s1 <> "Running"
      /\ o2 = Return tt /\ s2 = s1 /\ t2 = [StError not_running_message])
  \/ (button ui = true /\ truthy ut = true /\ api_status s1 = "Running"
      /\ recommend w (the_str ut) (radio ui) s1 = (o2, s2, t2)).
Proof.
  intros H. destruct (button ui).
  2:{ left. injection H as <- <- <-. auto. }
  right. destruct (truthy ut) eqn:Ht.
  2:{ left. rewrite on_submit_no_text in H by exact Ht.
      injection H as <- <- <-. auto. }
  right. destruct (String.eqb_spec (api_status s1) "Running") as [Hr|Hr].
  - right. rewrite on_submit_go in H by assumption. auto.
  - left. rewrite on_submit_not_running in H by assumption.
    injection H as <- <- <-. auto 6.
Qed.

(** Events of a kind that neither the page head nor the History tab
    emits are those of the status probe, of the text collection and of
    the Submit handler. *)
Lemma shape_filter (w : World) (P : event -> bool) st t1 (o2 : outcome unit) s2 t2 :
  (forall x, P (StTitle x) = false) ->
  (forall x, P (StHeader x) = false) -> (forall x, P (StWrite x) = false) ->
  (forall x, P (StImage x) = false) -> (forall x, P (StVideo x) = false) ->
  let x := match o2 with
           | Return _ =>
               (result_of (tab_history w s2), s2,
                [HttpGet status_url []] ++ page_head st ++ t1 ++ t2
                ++ trace_of (tab_history w s2))
           | Raise e =>
               (Raise e, s2, [HttpGet status_url []] ++ page_head st ++ t1 ++ t2)
           end in
  state_of x = s2
  /\ List.filter P (trace_of x)
     = List.filter P [HttpGet status_url []] ++ List.filter P t1 ++ List.filter P t2.
Proof.
  intros H0 H1 H2 H3 H4 x.
  assert (List.filter P (page_head st) = []) as Hhead.
  { unfold page_head. simpl. rewrite H0, !H1, !H2. reflexivity. }
  destruct (quiet_tab_history w P H1 H2 H3 H4 s2) as [_ Hq].
  subst x. destruct o2 as [[]|e]; unfold state_of, trace_of; cbn [fst snd].
  - split; [reflexivity|].
    rewrite !List.filter_app, Hhead. unfold trace_of in Hq. rewrite Hq.
    rewrite app_nil_r. reflexivity.
  - split; [reflexivity|].
    rewrite !List.filter_app, Hhead. reflexivity.
Qed.

(** X5: when the status probe raises, [main] raises the same exception
    at once: the only event of the run is the probe's request, nothing is
    drawn, and both globals are as before. *)
Theorem probe_crash_aborts_page (w : World) (ui : UI) (s : state) (e : exn) :
  result_of (check_api_status w s) = Raise e ->
  main w ui s = (Raise e, s, [HttpGet status_url []]).
Proof.
  intros H. apply main_status_raises. apply (probe_result w s _ H).
Qed.

Lemma main_history_step (w : World) (ui : UI) (s : state) :
  history (state_of (main w ui s)) = history s
  \/ exists text,
       text <> ""
       /\ history (state_of (main w ui s))
          = history s ++ [entry text (datetime_now w)].
Proof.
  destruct (main_shape w ui s)
    as [(e & _ & ->) | (st & ut & t1 & o2 & s2 & t2 & _ & _ & _ & Hs & ->)];
    [left; reflexivity|].
  assert (history s2 = history s
          \/ exists text, text <> ""
               /\ history s2 = history s ++ [entry text (datetime_now w)]) as H.
  { destruct (submit_cases w ui ut _ _ _ _ Hs)
      as [(_ & _ & -> & _)|[(_ & _ & _ & -> & _)|[(_ & _ & _ & _ & -> & _)
          |(_ & Htr & _ & Hrec)]]]; try (left; reflexivity).
    apply truthy_spec in Htr as (text & -> & Htext). simpl in Hrec.
    destruct (recommend_run w text (radio ui) (mk_state (history s) st))
      as (o & s' & t & Hrec' & _ & _ & _ & Hcase).
    rewrite Hrec in Hrec'. injection Hrec' as -> -> ->.
    destruct (media_flag (radio ui)) as [b|].
    - destruct Hcase as [_ Hcase].
      destruct (requests_get w fetch_url (fetch_params text b)) as [r|e];
        [|destruct Hcase as (_ & -> & _); left; reflexivity].
      destruct Hcase as [_ Hcase].
      destruct (json r) as [j|e];
        [|destruct Hcase as (_ & -> & _); left; reflexivity].
      destruct Hcase as [_ Hcase].
      destruct (st_image_raises w j) as [e|];
        [destruct Hcase as (_ & ->); left; reflexivity|].
      destruct Hcase as [_ ->]. right. eauto.
    - destruct Hcase as (_ & _ & ->). right. eauto. }
  destruct o2 as [[]|e]; exact H.
Qed.

(** X7: a run of [main] never removes or changes a history entry and adds
    at most one: the history afterwards is the history before, followed
    by nothing or by one entry made of a non-empty text and the formatted
    clock reading.  This holds for any media-type value and also when the
    run ends with an exception. *)
Theorem history_is_append_only (w : World) (ui : UI) (s : state) :
  history (state_of (main w ui s)) = history s
  \/ exists text,
       text <> ""
       /\ history (state_of (main w ui s))
          = history s ++ [entry text (datetime_now w)].
Proof. apply main_history_step. Qed.

Lemma recommend_keeps_status (w : World) text m s o s' t :
  recommend w text m s = (o, s', t) -> api_status s' = api_status s.
Proof.
  intros H. destruct (recommend_run w text m s) as (o1 & s1 & t1 & H1 & Hst & _).
  rewrite H in H1. injection H1 as -> -> ->. exact Hst.
Qed.

(** X6: whenever the status probe returns, the run stores the probed
    status in the global [api_status], where it stays until the end of
    the run, and writes it on the Demo tab. *)
Theorem probed_status_is_stored_and_shown
    (w : World) (ui : UI) (s : state) (st : string) :
  result_of (check_api_status w s) = Return st ->
  api_status (state_of (main w ui s)) = st
  /\ In (StWrite ("**API Status:** " ++ st)) (trace_of (main w ui s)).
Proof.
  intros Hst.
  destruct (main_shape w ui s)
    as [(e & He & _) | (st' & ut & t1 & o2 & s2 & t2 & Hp & _ & _ & Hs & ->)].
  { rewrite He in Hst. discriminate. }
  rewrite Hp in Hst. injection Hst as ->.
  assert (api_status s2 = st) as Hs2.
  { destruct (submit_cases w ui ut _ _ _ _ Hs)
      as [(_ & _ & -> & _)|[(_ & _ & _ & -> & _)|[(_ & _ & _ & _ & -> & _)
          |(_ & _ & _ & Hrec)]]]; try reflexivity.
    apply recommend_keeps_status in Hrec. exact Hrec. }
  assert (In (StWrite ("**API Status:** " ++ st)) (page_head st)) as Hin.
  { unfold page_head. simpl. auto 10. }
  destruct o2 as [[]|e]; unfold state_of, trace_of; cbn [fst snd];
    (split; [exact Hs2|]);
    apply in_or_app; right; apply in_or_app; left; exact Hin.
Qed.

Lemma flag_requests (w : World) text m s o s' t :
  recommend w text m s = (o, s', t) ->
  http_requests t =
  match media_flag m with
  | Some b => [HttpGet fetch_url (fetch_params text b)]
  | None => []
  end.
Proof.
  intros H. destruct (recommend_run w text m s) as (o1 & s1 & t1 & H1 & _ & _ & _ & Hc).
  rewrite H in H1. injection H1 as -> -> ->.
  destruct (media_flag m); [apply Hc|]. destruct Hc as (-> & _). reflexivity.
Qed.

(** X16: a run of [main] sends at most two HTTP requests, in this order:
    always the probe on [/status], and then at most one GET on
    [/recommend_images]; the second is sent only on Submit with a
    ["Running"] status, a non-empty collected text, which is the query,
    and one of the two options selected, which fixes the flag. *)
Theorem at_most_two_requests (w : World) (ui : UI) (s : state) :
  http_requests (trace_of (main w ui s)) = [HttpGet status_url []]
  \/ exists text b,
       http_requests (trace_of (main w ui s))
       = [HttpGet status_url []; HttpGet fetch_url (fetch_params text b)]
       /\ button ui = true
       /\ result_of (check_api_status w s) = Return "Running"
       /\ result_of (collect_text w ui s) = Return (Some text)
       /\ text <> ""
       /\ media_flag (radio ui) = Some b.
Proof.
  destruct (main_shape w ui s)
    as [(e & _ & ->) | (st & ut & t1 & o2 & s2 & t2 & Hp & Hc & Ht1 & Hs & ->)];
    [left; reflexivity|].
  destruct (shape_filter w is_http st t1 o2 s2 t2) as [_ Hf]; try reflexivity.
  unfold http_requests. rewrite Hf.
  rewrite (http_requests_errors t1 Ht1 : List.filter is_http t1 = []).
  change (List.filter is_http t2) with (http_requests t2).
  destruct (submit_cases w ui ut _ _ _ _ Hs)
    as [(_ & _ & _ & ->)|[(_ & _ & _ & _ & ->)|[(_ & _ & _ & _ & _ & ->)
        |(Hb & Htr & Hrun & Hrec)]]]; try (left; reflexivity).
  rewrite (flag_requests w _ _ _ _ _ _ Hrec).
  destruct (media_flag (radio ui)) as [b|] eqn:Hflag; [|left; reflexivity].
  right. apply truthy_spec in Htr as (text & -> & Htext).
  exists text, b. simpl in Hrun. subst st.
  split; [reflexivity|]. split; [exact Hb|].
  split; [rewrite Hp; reflexivity|]. split; [rewrite Hc; reflexivity|].
  split; [exact Htext | reflexivity].
Qed.

(** X15: a run in which Submit is not pressed sends only the status
    probe, leaves the history as it was and shows neither Submit
    message, whatever the text, the upload and the status are. *)
Theorem no_submit_no_effect (w : World) (ui : UI) (s : state) :
  button ui = false ->
  http_requests (trace_of (main w ui s)) = [HttpGet status_url []]
  /\ history (state_of (main w ui s)) = history s
  /\ List.filter is_submit_message (trace_of (main w ui s)) = [].
Proof.
  intros Hb.
  destruct (main_shape w ui s)
    as [(e & _ & ->) | (st & ut & t1 & o2 & s2 & t2 & Hp & Hc & Ht1 & Hs & ->)];
    [repeat split|].
  destruct (collect_text_messages w ui) as (ut' & t1' & Hc' & _ & Hm).
  assert (t1' = t1) as -> by (specialize (Hc s); specialize (Hc' s); congruence).
  rewrite Hb in Hs. injection Hs as <- <- <-.
  destruct (shape_filter w is_http st t1 (Return tt) (mk_state (history s) st) [])
    as [Hst Hf]; try reflexivity.
  destruct (shape_filter w is_submit_message st t1 (Return tt)
              (mk_state (history s) st) []) as [_ Hg]; try reflexivity.
  cbv zeta in Hst, Hf, Hg.
  split; [|split].
  - unfold http_requests. rewrite Hf.
    rewrite (http_requests_errors t1 Ht1 : List.filter is_http t1 = []).
    reflexivity.
  - rewrite Hst. reflexivity.
  - rewrite Hg, Hm. reflexivity.
Qed.

(** X13: on Submit without text (an empty text area, an unsupported
    upload, an upload whose extraction failed or gave no text), the run
    shows the message asking for text and only that Submit message, also
    when the API is not running; it sends only the status probe and
    leaves the history as it was. *)
Theorem empty_text_asks_for_text
    (w : World) (ui : UI) (s : state) (st : string) (ut : option string) :
  button ui = true ->
  result_of (check_api_status w s) = Return st ->
  result_of (collect_text w ui s) = Return ut ->
  truthy ut = false ->
  List.filter is_submit_message (trace_of (main w ui s)) = [StError no_text_message]
  /\ http_requests (trace_of (main w ui s)) = [HttpGet status_url []]
  /\ history (state_of (main w ui s)) = history s.
Proof.
  intros Hb Hst Hut Htr.
  destruct (main_shape w ui s)
    as [(e & He & _) | (st' & ut' & t1 & o2 & s2 & t2 & Hp & Hc & Ht1 & Hs & ->)].
  { rewrite He in Hst. discriminate. }
  destruct (collect_text_messages w ui) as (ut'' & t1' & Hc' & _ & Hm).
  assert (t1' = t1) as -> by (specialize (Hc s); specialize (Hc' s); congruence).
  rewrite Hc in Hut. injection Hut as ->.
  rewrite Hb, on_submit_no_text in Hs by exact Htr. injection Hs as <- <- <-.
  destruct (shape_filter w is_http st' t1 (Return tt) (mk_state (history s) st')
              [StError no_text_message]) as [Hs2 Hf]; try reflexivity.
  destruct (shape_filter w is_submit_message st' t1 (Return tt)
              (mk_state (history s) st') [StError no_text_message])
    as [_ Hg]; try reflexivity.
  cbv zeta in Hs2, Hf, Hg.
  split; [|split].
  - rewrite Hg, Hm. reflexivity.
  - unfold http_requests. rewrite Hf.
    rewrite (http_requests_errors t1 Ht1 : List.filter is_http t1 = []).
    reflexivity.
  - rewrite Hs2. reflexivity.
Qed.

(** X14: on Submit with text while the probed status is not ["Running"],
    the run shows the message that the API is not running and only that
    Submit message; it sends only the status probe and leaves the history
    as it was. *)
Theorem not_running_says_so
    (w : World) (ui : UI) (s : state) (st : string) (ut : option string) :
  button ui = true ->
  result_of (check_api_status w s) = Return st ->
  st <> "Running" ->
  result_of (collect_text w ui s) = Return ut ->
  truthy ut = true ->
  List.filter is_submit_message (trace_of (main w ui s))
  = [StError not_running_message]
  /\ http_requests (trace_of (main w ui s)) = [HttpGet status_url []]
  /\ history (state_of (main w ui s)) = history s.
Proof.
  intros Hb Hst Hne Hut Htr.
  destruct (main_shape w ui s)
    as [(e & He & _) | (st' & ut' & t1 & o2 & s2 & t2 & Hp & Hc & Ht1 & Hs & ->)].
  { rewrite He in Hst. discriminate. }
  destruct (collect_text_messages w ui) as (ut'' & t1' & Hc' & _ & Hm).
  assert (t1' = t1) as -> by (specialize (Hc s); specialize (Hc' s); congruence).
  rewrite Hc in Hut. injection Hut as ->.
  rewrite Hp in Hst. injection Hst as ->.
  rewrite Hb, on_submit_not_running in Hs by assumption.
  injection Hs as <- <- <-.
  destruct (shape_filter w is_http st t1 (Return tt) (mk_state (history s) st)
              [StError not_running_message]) as [Hs2 Hf]; try reflexivity.
  destruct (shape_filter w is_submit_message st t1 (Return tt)
              (mk_state (history s) st) [StError not_running_message])
    as [_ Hg]; try reflexivity.
  cbv zeta in Hs2, Hf, Hg.
  split; [|split].
  - rewrite Hg, Hm. reflexivity.
  - unfold http_requests. rewrite Hf.
    rewrite (http_requests_errors t1 Ht1 : List.filter is_http t1 = []).
    reflexivity.
  - rewrite Hs2. reflexivity.
Qed.

(** A run that reaches [recommend] and raises there. *)
Lemma crash_in_recommend (w : World) (ui : UI) (s : state) (text : string)
    (e : exn) (t2 : list event) :
  button ui = true ->
  result_of (check_api_status w s) = Return "Running" ->
  result_of (collect_text w ui s) = Return (Some text) ->
  text <> "" ->
  recommend w text (radio ui) (mk_state (history s) "Running")
    = (Raise e, mk_state (history s) "Running", t2) ->
  List.filter is_header t2 = [] ->
  result_of (main w ui s) = Raise e
  /\ history (state_of (main w ui s)) = history s
  /\ List.filter is_header (trace_of (main w ui s))
     = [StHeader "Introduction"; StHeader "Demo: Get Image Recommendations"]
  /\ (existsb is_st_error t2 = true ->
      existsb is_st_error (trace_of (main w ui s)) = true).
Proof.
  intros Hb Hst Hut Htext Hrec Hh.
  destruct (main_shape w ui s)
    as [(e0 & He & _) | (st' & ut' & t1 & o2 & s2 & t2' & Hp & Hc & Ht1 & Hs & ->)].
  { rewrite He in Hst. discriminate. }
  rewrite Hp in Hst. injection Hst as ->.
  rewrite Hc in Hut. injection Hut as ->.
  rewrite Hb, on_submit_go in Hs
    by (reflexivity || (apply truthy_spec; eauto)).
  simpl in Hs. rewrite Hrec in Hs. injection Hs as <- <- <-.
  unfold result_of, state_of, trace_of. cbn [fst snd].
  split; [reflexivity|]. split; [reflexivity|]. split.
  - rewrite !List.filter_app, Hh.
    rewrite (filter_errors_only is_header t1 (fun _ => eq_refl) Ht1).
    reflexivity.
  - intros He. rewrite !existsb_app, He, !orb_true_r. reflexivity.
Qed.

(** X11: on Submit with text, a ["Running"] status and one of the two
    options selected, a request that raises is reported by an error
    message, after which [main] itself fails with [AttributeError], since
    it calls [.json()] on the [None] it got back: the history is
    unchanged and the History tab is not drawn. *)
Theorem failed_fetch_aborts_run
    (w : World) (ui : UI) (s : state) (text : string) (b : bool) (e : exn) :
  button ui = true ->
  result_of (check_api_status w s) = Return "Running" ->
  result_of (collect_text w ui s) = Return (Some text) ->
  text <> "" ->
  media_flag (radio ui) = Some b ->
  requests_get w fetch_url (fetch_params text b) = Raise e ->
  result_of (main w ui s)
  = Raise (mk_exn AttributeError "'NoneType' object has no attribute 'json'")
  /\ history (state_of (main w ui s)) = history s
  /\ existsb is_st_error (trace_of (main w ui s)) = true
  /\ List.filter is_header (trace_of (main w ui s))
     = [StHeader "Introduction"; StHeader "Demo: Get Image Recommendations"].
Proof.
  intros Hb Hst Hut Htext Hflag Hg.
  destruct (recommend_run w text (radio ui) (mk_state (history s) "Running"))
    as (o & s' & t & Hrec & _ & Hh & _ & Hcase).
  rewrite Hflag, Hg in Hcase. destruct Hcase as (_ & -> & -> & Herr & _).
  destruct (crash_in_recommend w ui s text _ t Hb Hst Hut Htext Hrec Hh)
    as (H1 & H2 & H3 & H4).
  auto.
Qed.

(** X18: on Submit with text, a ["Running"] status and one of the two
    options selected, a response whose body does not parse as JSON, or
    parses to something the image widget rejects, makes [main] fail with
    that very exception: nothing is appended to the history and the
    History tab is not drawn. *)
Theorem unrenderable_reply_aborts_run
    (w : World) (ui : UI) (s : state) (text : string) (b : bool)
    (r : Response) (e : exn) :
  button ui = true ->
  result_of (check_api_status w s) = Return "Running" ->
  result_of (collect_text w ui s) = Return (Some text) ->
  text <> "" ->
  media_flag (radio ui) = Some b ->
  requests_get w fetch_url (fetch_params text b) = Return r ->
  json r = Raise e
  \/ (exists j, json r = Return j /\ st_image_raises w j = Some e) ->
  result_of (main w ui s) = Raise e
  /\ history (state_of (main w ui s)) = history s
  /\ List.filter is_header (trace_of (main w ui s))
     = [StHeader "Introduction"; StHeader "Demo: Get Image Recommendations"].
Proof.
  intros Hb Hst Hut Htext Hflag Hg Hbad.
  destruct (recommend_run w text (radio ui) (mk_state (history s) "Running"))
    as (o & s' & t & Hrec & _ & Hh & _ & Hcase).
  rewrite Hflag, Hg in Hcase. destruct Hcase as (_ & _ & Hcase).
  assert (o = Raise e /\ s' = mk_state (history s) "Running") as [-> ->].
  { destruct Hbad as [Hj|(j & Hj & Hi)]; rewrite Hj in Hcase.
    - destruct Hcase as (-> & -> & _). auto.
    - destruct Hcase as [_ Hcase]. rewrite Hi in Hcase. exact Hcase. }
  destruct (crash_in_recommend w ui s text _ t Hb Hst Hut Htext Hrec Hh)
    as (H1 & H2 & H3 & _).
  auto.
Qed.

(** X12: an uploaded file takes the place of the typed text: with a file
    in the uploader, the whole run is the same whatever the text area
    holds, even when the file is of an unsupported type or cannot be
    read. *)
Theorem upload_overrides_typed_text
    (w : World) (ui : UI) (s : state) (f : UploadedFile) (other : string) :
  file_uploader ui = Some f ->
  main w ui s = main w (mk_UI other (Some f) (radio ui) (button ui)) s.
Proof.
  intros Hf. destruct ui as [typed_text up media btn]. simpl in Hf. subst up.
  reflexivity.
Qed.

(** ** The History tab *)

Lemma for_each_run {A} (l : list A) (body : A -> M unit)
    (g : A -> list event) (s : state) :
  (forall x, In x l -> body x s = (Return tt, s, g x)) ->
  for_each l body s = (Return tt, s, List.flat_map g l).
Proof.
  induction l as [|x l IH]; intros H; simpl; [reflexivity|].
  unfold bind at 1. rewrite (H x) by (left; reflexivity).
  rewrite IH by (intros; apply H; right; assumption). reflexivity.
Qed.

Lemma entry_keys (d : gmap string string) :
  is_entry d ->
  is_Some (d !! "timestamp") /\ is_Some (d !! "text")
  /\ d !! "AI Image" = None /\ d !! "Stock Image" = None.
Proof.
  intros (text & ts & ->).
  rewrite lookup_insert_eq.
  rewrite !lookup_insert_ne by discriminate.
  rewrite lookup_singleton_eq.
  rewrite !lookup_singleton_ne by discriminate. eauto.
Qed.

Lemma shown_no_media (h : list (gmap string string)) :
  List.filter is_media (List.flat_map shown h) = [].
Proof.
  induction h as [|d h IH]; [reflexivity|]. simpl. exact IH.
Qed.

(** On a history made of entries as [main] builds them, the History tab
    returns and writes the three lines of every entry in order. *)
Lemma tab_history_entries (w : World) (h : list (gmap string string)) (st : string) :
  Forall is_entry h ->
  tab_history w (mk_state h st) =
  (Return tt, mk_state h st,
   history_head ++ match h with
                   | [] => [StWrite "No history available yet."]
                   | _ => List.flat_map shown h
                   end).
Proof.
  intros Hh. unfold tab_history.
  unfold bind at 1. unfold emit at 1.
  unfold bind at 1. unfold st_write at 1, emit at 1.
  unfold bind at 1. unfold get_history at 1. cbn [history].
  destruct h as [|d h]; [reflexivity|].
  rewrite (for_each_run (d :: h) _ shown); [reflexivity|].
  intros x Hx. rewrite Forall_forall in Hh.
  destruct (entry_keys x) as ([ts Hts] & [tx Htx] & Hai & Hstock).
  { apply Hh. apply list_elem_of_In. exact Hx. }
  unfold bind, dict_item, dict_has, st_write, emit, ret, shown.
  rewrite Hts, Htx, Hai, Hstock. reflexivity.
Qed.

(** X9: on a history made of entries as [main] builds them, the History
    tab never raises and shows no image or video: after its two opening
    lines it writes, for every entry in order, the timestamp, the text
    and a rule, or the line that no history is available when the history
    is empty. *)
Theorem history_tab_lists_entries
    (w : World) (h : list (gmap string string)) (st : string) :
  Forall is_entry h ->
  tab_history w (mk_state h st) =
  (Return tt, mk_state h st,
   history_head ++ match h with
                   | [] => [StWrite "No history available yet."]
                   | _ => List.flat_map shown h
                   end)
  /\ List.filter is_media (trace_of (tab_history w (mk_state h st))) = [].
Proof.
  intros Hh. rewrite (tab_history_entries w h st Hh). split; [reflexivity|].
  unfold trace_of. cbn [snd]. rewrite List.filter_app.
  destruct h; [reflexivity|]. rewrite shown_no_media. reflexivity.
Qed.

(** X10: the History tab tests an entry for the key ["AI Image"] but then
    reads the key ["image"]: on an entry that has the first and lacks the
    second it writes the timestamp, the text and the image caption and
    then raises [KeyError], before any later entry is shown. *)
Theorem history_tab_image_key_mismatch
    (w : World) (d : gmap string string) (rest : list (gmap string string))
    (st ts tx : string) :
  d !! "timestamp" = Some ts ->
  d !! "text" = Some tx ->
  is_Some (d !! "AI Image") ->
  d !! "image" = None ->
  tab_history w (mk_state (d :: rest) st) =
  (Raise (mk_exn KeyError "image"), mk_state (d :: rest) st,
   history_head ++ [ StWrite ("**Timestamp:** " ++ ts);
                     StWrite ("**Text:** " ++ tx);
                     StWrite "**Image:**" ]).
Proof.
  intros Hts Htx [v Hai] Himg. unfold tab_history.
  unfold bind at 1. unfold emit at 1.
  unfold bind at 1. unfold st_write at 1, emit at 1.
  unfold bind at 1. unfold get_history at 1. cbn [history].
  cbn [for_each]. unfold bind at 1.
  unfold bind, dict_item, dict_has, st_write, emit, ret, raise.
  rewrite Hts, Htx, Hai, Himg. reflexivity.
Qed.


Lemma filter_nil_not_in (P : event -> bool) (t : list event) (e : event) :
  List.filter P t = [] -> In e t -> P e = false.
Proof.
  induction t as [|x t IH]; simpl; [contradiction|].
  destruct (P x) eqn:Hx; [discriminate|].
  intros H [<-|Hin]; [exact Hx | exact (IH H Hin)].
Qed.

(** From a history of entries as [main] builds them, a run leaves such a
    history, and once it has reached the History tab it returns
    normally. *)
Lemma main_keeps_entries (w : World) (ui : UI) (s : state) :
  Forall is_entry (history s) ->
  Forall is_entry (history (state_of (main w ui s)))
  /\ (In (StHeader "History of Recommendations") (trace_of (main w ui s)) ->
      result_of (main w ui s) = Return tt).
Proof.
  intros Hwf. split.
  - destruct (main_history_step w ui s) as [->|(text & _ & ->)]; [exact Hwf|].
    apply Forall_app. split; [exact Hwf|].
    constructor; [|constructor]. unfold entry, is_entry. eauto.
  - pose proof (main_history_step w ui s) as Hstep.
    destruct (main_shape w ui s)
      as [(e & _ & Hm) | (st & ut & t1 & o2 & s2 & t2 & _ & _ & Ht1 & Hs & Hm)];
      rewrite Hm in *.
    { unfold trace_of. simpl. intros [H|[]]. discriminate. }
    destruct o2 as [[]|e].
    + intros _. unfold result_of, state_of in *. cbn [fst snd] in *.
      assert (Forall is_entry (history s2)) as Hwf2.
      { destruct Hstep as [->|(text & _ & ->)]; [exact Hwf|].
        apply Forall_app. split; [exact Hwf|].
        constructor; [|constructor]. unfold entry, is_entry. eauto. }
      destruct s2 as [h2 st2]. cbn [history] in Hwf2.
      rewrite (tab_history_entries w h2 st2 Hwf2). reflexivity.
    + unfold trace_of. cbn [snd]. intros Hin. exfalso.
      assert (List.filter is_header t2 = []) as Ht2.
      { destruct (submit_cases w ui ut _ _ _ _ Hs)
          as [(_ & _ & _ & ->)|[(_ & _ & _ & _ & ->)|[(_ & _ & _ & _ & _ & ->)
              |(_ & _ & _ & Hrec)]]]; try reflexivity.
        destruct (recommend_run w (the_str ut) (radio ui)
                    (mk_state (history s) st))
          as (o & s' & t & Hrec' & _ & Hh & _).
        rewrite Hrec in Hrec'. injection Hrec' as _ _ ->. exact Hh. }
      apply in_app_or in Hin as [[H|[]]|Hin]; [discriminate|].
      apply in_app_or in Hin as [Hin|Hin].
      { unfold page_head in Hin. simpl in Hin.
        repeat destruct Hin as [Hin|Hin]; try discriminate; contradiction. }
      apply in_app_or in Hin as [Hin|Hin].
      * pose proof (filter_nil_not_in is_header t1 _
                      (filter_errors_only is_header t1 (fun _ => eq_refl) Ht1)
                      Hin) as H.
        discriminate.
      * pose proof (filter_nil_not_in is_header t2 _ Ht2 Hin) as H.
        discriminate.
Qed.

(** X8: one execution of the script, which starts from the empty history
    the module sets up, ends with a history that is empty or holds the
    single entry of that execution, made of a non-empty text and the
    formatted clock reading; and once the execution has reached the
    History tab it returns normally, the tab not raising on such an
    entry. *)
Theorem script_history_holds_at_most_one_entry (w : World) (ui : UI) :
  (history (state_of (script w ui)) = []
   \/ exists text,
        text <> ""
        /\ history (state_of (script w ui)) = [entry text (datetime_now w)])
  /\ Forall is_entry (history (state_of (script w ui)))
  /\ (In (StHeader "History of Recommendations") (trace_of (script w ui)) ->
      result_of (script w ui) = Return tt).
Proof.
  unfold script. split.
  - destruct (main_history_step w ui initial_state) as [H|(text & Ht & H)].
    + left. exact H.
    + right. exists text. split; [exact Ht | exact H].
  - apply main_keeps_entries. constructor.
Qed.

(** ** Timestamps and unreadable uploads *)

Lemma compare_refl (x : string) : String.compare x x = Eq.
Proof.
  induction x as [|c x IH]; [reflexivity|].
  rewrite compare_cons, IH. unfold Ascii.compare. rewrite N.compare_refl.
  reflexivity.
Qed.

Lemma length_dec (k n : nat) (acc : string) :
  String.length (dec k n acc) = k + String.length acc.
Proof.
  revert n acc. induction k as [|k IH]; intros n acc; cbn [dec]; [reflexivity|].
  rewrite IH. cbn [String.length]. lia.
Qed.

Lemma dt_compare_eq (a b : datetime) : dt_compare a b = Eq -> a = b.
Proof.
  unfold dt_compare. destruct a as [y1 m1 d1 h1 mi1 s1], b as [y2 m2 d2 h2 mi2 s2].
  cbn [year month day hour minute second].
  destruct (Nat.compare_spec y1 y2); try discriminate.
  destruct (Nat.compare_spec m1 m2); try discriminate.
  destruct (Nat.compare_spec d1 d2); try discriminate.
  destruct (Nat.compare_spec h1 h2); try discriminate.
  destruct (Nat.compare_spec mi1 mi2); try discriminate.
  destruct (Nat.compare_spec s1 s2); try discriminate.
  intros _. congruence.
Qed.

(** X17: from the year 1000 on, the timestamp format makes string order
    chronological order: on clock readings within the range of
    [datetime] whose year has four digits, comparing two timestamps as
    strings gives the comparison of the readings field by field from the
    year down to the second; every such timestamp has 19 characters; and
    two such readings with the same timestamp are equal. *)
Theorem timestamps_order_like_the_clock (a b : datetime) :
  valid_datetime a = true -> valid_datetime b = true ->
  four_digit_year a = true -> four_digit_year b = true ->
  String.compare (strftime a) (strftime b) = dt_compare a b
  /\ String.length (strftime a) = 19
  /\ (strftime a = strftime b -> a = b).
Proof.
  intros Ha Hb Ya Yb. pose proof (strftime_compare a b Ha Hb Ya Yb) as Hc.
  split; [exact Hc|]. split.
  - unfold strftime. rewrite (year_width_four a Ya).
    unfold zfill. rewrite !dec_app. cbn [String.append].
    repeat (rewrite length_dec; cbn [String.length]). reflexivity.
  - intros Heq. apply dt_compare_eq. rewrite <- Hc, Heq. apply compare_refl.
Qed.

(** X19: on Submit with an uploaded file of a supported type that cannot
    be read (text that is not valid UTF-8, a docx or PDF whose parsing
    raises), the run shows exactly two error messages, the reader's and
    then the one asking for text; it sends only the status probe and
    leaves the history as it was. *)
Theorem unreadable_upload_asks_for_text
    (w : World) (ui : UI) (s : state) (f : UploadedFile) (st : string) :
  file_uploader ui = Some f ->
  button ui = true ->
  result_of (check_api_status w s) = Return st ->
  (type f = "text/plain" /\ utf8_valid (payload f) = false)
  \/ (type f = docx_type /\ exists e, Document w f = Raise e)
  \/ (type f = "application/pdf" /\ exists e, pdf_fails w f e) ->
  exists msg,
    List.filter is_st_error (trace_of (main w ui s))
    = [StError msg; StError no_text_message]
    /\ http_requests (trace_of (main w ui s)) = [HttpGet status_url []]
    /\ history (state_of (main w ui s)) = history s.
Proof.
  intros Hf Hb Hst Hbad.
  assert (exists msg, forall s',
            collect_text w ui s' = (Return (Some ""), s', [StError msg]))
    as [msg Hcol].
  { unfold collect_text. rewrite Hf.
    destruct Hbad as [[Ht Hu]|[[Ht [e He]]|[Ht [e He]]]].
    - eexists. intros s'.
      apply (process_file_dispatch w f read_text_file); [auto|].
      rewrite read_text_file_run. unfold decode_utf8. rewrite Hu. reflexivity.
    - eexists. intros s'.
      apply (process_file_dispatch w f (read_docx_file w)); [auto|].
      rewrite read_docx_file_run, He. reflexivity.
    - eexists. intros s'.
      apply (process_file_dispatch w f (read_pdf_file w)); [auto 6|].
      apply read_pdf_file_fails, He. }
  exists msg.
  destruct (main_shape w ui s)
    as [(e & He & _) | (st' & ut & t1 & o2 & s2 & t2 & Hp & Hc & Ht1 & Hs & ->)].
  { rewrite He in Hst. discriminate. }
  assert (ut = Some "" /\ t1 = [StError msg]) as [-> ->].
  { specialize (Hc s). specialize (Hcol s). split; congruence. }
  rewrite Hb, on_submit_no_text in Hs by reflexivity. injection Hs as <- <- <-.
  destruct (shape_filter w is_http st' [StError msg] (Return tt)
              (mk_state (history s) st') [StError no_text_message])
    as [Hs2 Hf1]; try reflexivity.
  destruct (shape_filter w is_st_error st' [StError msg] (Return tt)
              (mk_state (history s) st') [StError no_text_message])
    as [_ Hf2]; try reflexivity.
  cbv zeta in Hs2, Hf1, Hf2.
  split; [rewrite Hf2; reflexivity|].
  split; [unfold http_requests; rewrite Hf1; reflexivity|].
  rewrite Hs2. reflexivity.
Qed.

(** ** A successful run, end to end *)

(** X20: on Submit with text, a ["Running"] status, one of the two options
    selected and a reply whose JSON body the image widget accepts, and on
    a history made of entries as [main] builds them, the run returns
    normally; the only image or video it shows is the parsed body of the
    reply; and it ends with the History tab listing all earlier entries
    followed by the new one. *)
Theorem successful_run_shows_image_then_history
    (w : World) (ui : UI) (s : state) (text : string) (b : bool)
    (r : Response) (j : jvalue) :
  button ui = true ->
  result_of (check_api_status w s) = Return "Running" ->
  result_of (collect_text w ui s) = Return (Some text) ->
  text <> "" ->
  media_flag (radio ui) = Some b ->
  requests_get w fetch_url (fetch_params text b) = Return r ->
  json r = Return j ->
  st_image_raises w j = None ->
  Forall is_entry (history s) ->
  result_of (main w ui s) = Return tt
  /\ List.filter is_media (trace_of (main w ui s)) = [StImage j]
  /\ exists before,
       trace_of (main w ui s)
       = before ++ history_head
         ++ List.flat_map shown (history s ++ [entry text (datetime_now w)]).
Proof.
  intros Hb Hst Hut Htext Hflag Hg Hj Hi Hwf.
  destruct (recommend_run w text (radio ui) (mk_state (history s) "Running"))
    as (o & s' & t & Hrec & Hkeep & _ & _ & Hcase).
  rewrite Hflag, Hg in Hcase. destruct Hcase as (_ & _ & Hcase).
  rewrite Hj, Hi in Hcase. destruct Hcase as (Hmedia & -> & Hhist).
  destruct s' as [h' st']. cbn [history api_status] in Hkeep, Hhist. subst h' st'.
  destruct (main_shape w ui s)
    as [(e0 & He & _) | (st' & ut' & t1 & o2 & s2 & t2' & Hp & Hc & Ht1 & Hs & ->)].
  { rewrite He in Hst. discriminate. }
  rewrite Hp in Hst. injection Hst as ->.
  rewrite Hc in Hut. injection Hut as ->.
  rewrite Hb, on_submit_go in Hs
    by (reflexivity || (apply truthy_spec; eauto)).
  simpl in Hs. rewrite Hrec in Hs. injection Hs as <- <- <-.
  assert (Forall is_entry (history s ++ [entry text (datetime_now w)])) as Hwf'.
  { apply Forall_app. split; [exact Hwf|].
    constructor; [|constructor]. unfold entry, is_entry. eauto. }
  rewrite (tab_history_entries w _ "Running" Hwf').
  unfold result_of, trace_of. cbn [fst snd].
  assert (match history s ++ [entry text (datetime_now w)] with
          | [] => [StWrite "No history available yet."]
          | _ :: _ =>
              List.flat_map shown (history s ++ [entry text (datetime_now w)])
          end
          = List.flat_map shown (history s ++ [entry text (datetime_now w)]))
    as ->.
  { destruct (history s); reflexivity. }
  split; [reflexivity|]. split.
  - rewrite !List.filter_app, Hmedia, shown_no_media.
    rewrite (filter_errors_only is_media t1 (fun _ => eq_refl) Ht1).
    reflexivity.
  - exists ([HttpGet status_url []] ++ page_head "Running" ++ t1 ++ t).
    rewrite <- !app_assoc. reflexivity.
Qed.

(** ** Instances of the further properties *)

Lemma fetch_error_message_follows_first_handler_witness :
  trace_of (get_image_recommendation (sample_world running_reply connect_timeout)
              "a cat" true initial_state)
  = [HttpGet fetch_url (fetch_params "a cat" true);
     StError "Connection error occurred: Connection to server timed out"].
Proof.
  rewrite (fetch_error_message_follows_first_handler
             (sample_world running_reply connect_timeout) "a cat" true
             initial_state (mk_exn ConnectTimeout "Connection to server timed out")
             eq_refl).
  reflexivity.
Defined.

Lemma probe_crash_aborts_page_witness :
  main (sample_world array_status_reply image_reply) (typed "a cat" "AI")
       initial_state
  = (Raise (mk_exn AttributeError "object has no attribute 'get'"),
     initial_state, [HttpGet status_url []]).
Proof.
  exact (probe_crash_aborts_page (sample_world array_status_reply image_reply)
           (typed "a cat" "AI") initial_state _ eq_refl).
Defined.

Lemma probed_status_is_stored_and_shown_witness :
  api_status (state_of (main healthy_world (typed "a cat" "AI") initial_state))
  = "Running".
Proof.
  exact (proj1 (probed_status_is_stored_and_shown healthy_world
                  (typed "a cat" "AI") initial_state "Running" eq_refl)).
Defined.

Lemma no_submit_no_effect_witness :
  button not_submitted = false
  /\ http_requests (trace_of (main healthy_world not_submitted initial_state))
     = [HttpGet status_url []].
Proof.
  split; [reflexivity|].
  exact (proj1 (no_submit_no_effect healthy_world not_submitted initial_state
                  eq_refl)).
Defined.

Lemma empty_text_asks_for_text_witness :
  truthy (Some "") = false
  /\ List.filter is_submit_message
       (trace_of (main healthy_world (typed "" "AI") initial_state))
     = [StError no_text_message].
Proof.
  split; [reflexivity|].
  exact (proj1 (empty_text_asks_for_text healthy_world (typed "" "AI")
                  initial_state "Running" (Some "")
                  eq_refl eq_refl eq_refl eq_refl)).
Defined.

Lemma not_running_says_so_witness :
  "Not Available" <> "Running"
  /\ List.filter is_submit_message
       (trace_of (main (sample_world unreachable image_reply)
                       (typed "a cat" "AI") initial_state))
     = [StError not_running_message].
Proof.
  split; [discriminate|].
  refine (proj1 (not_running_says_so (sample_world unreachable image_reply)
                   (typed "a cat" "AI") initial_state "Not Available"
                   (Some "a cat") eq_refl eq_refl _ eq_refl eq_refl)).
  discriminate.
Defined.

Lemma failed_fetch_aborts_run_witness :
  requests_get (sample_world running_reply unreachable) fetch_url
    (fetch_params "a cat" true) = unreachable
  /\ result_of (main (sample_world running_reply unreachable)
                     (typed "a cat" "AI") initial_state)
     = Raise (mk_exn AttributeError "'NoneType' object has no attribute 'json'").
Proof.
  split; [reflexivity|].
  refine (proj1 (failed_fetch_aborts_run (sample_world running_reply unreachable)
                   (typed "a cat" "AI") initial_state "a cat" true
                   (mk_exn ConnectionError "Max retries exceeded")
                   eq_refl eq_refl eq_refl _ eq_refl eq_refl)).
  discriminate.
Defined.

Lemma unrenderable_reply_aborts_run_witness :
  result_of (main (sample_world running_reply not_json_reply)
                  (typed "a cat" "Stock Images") initial_state)
  = Raise (mk_exn InvalidJSONError "Expecting value")
  /\ history (state_of (main (sample_world running_reply not_json_reply)
                            (typed "a cat" "Stock Images") initial_state))
     = [].
Proof.
  destruct (unrenderable_reply_aborts_run
              (sample_world running_reply not_json_reply)
              (typed "a cat" "Stock Images") initial_state "a cat" false
              (mk_Response 200 (Raise (mk_exn InvalidJSONError "Expecting value")))
              (mk_exn InvalidJSONError "Expecting value"))
    as (H1 & H2 & _);
    try reflexivity; [discriminate | left; reflexivity |].
  split; [exact H1 | exact H2].
Defined.

Lemma upload_overrides_typed_text_witness :
  main healthy_world (uploaded "text/plain" [x68; x69] "AI") initial_state
  = main healthy_world
      (mk_UI "typed text" (Some (mk_UploadedFile "text/plain" [x68; x69])) "AI" true)
      initial_state.
Proof.
  exact (upload_overrides_typed_text healthy_world
           (uploaded "text/plain" [x68; x69] "AI") initial_state
           (mk_UploadedFile "text/plain" [x68; x69]) "typed text" eq_refl).
Defined.

Lemma history_tab_lists_entries_witness :
  trace_of (tab_history healthy_world one_entry_state)
  = history_head ++ [ StWrite "**Timestamp:** 2024-05-17 09:30:00";
                      StWrite "**Text:** a dog";
                      StWrite "---" ].
Proof.
  assert (Forall is_entry (history one_entry_state)) as H.
  { constructor; [|constructor]. unfold is_entry, entry. eauto. }
  change one_entry_state with (mk_state (history one_entry_state) "Unknown").
  rewrite (proj1 (history_tab_lists_entries healthy_world
                    (history one_entry_state) "Unknown" H)).
  reflexivity.
Defined.

Lemma history_tab_image_key_mismatch_witness :
  result_of (tab_history healthy_world (mk_state [mismatched_entry] "Unknown"))
  = Raise (mk_exn KeyError "image").
Proof.
  rewrite (history_tab_image_key_mismatch healthy_world mismatched_entry []
             "Unknown" "2024-05-17 10:30:00" "a cat");
    [reflexivity | reflexivity | reflexivity | | reflexivity].
  exists "img1.png". reflexivity.
Defined.


Lemma timestamps_order_like_the_clock_witness :
  String.compare (strftime earlier_clock) (strftime sample_clock) = Lt.
Proof.
  rewrite (proj1 (timestamps_order_like_the_clock earlier_clock sample_clock
                    eq_refl eq_refl eq_refl eq_refl)).
  reflexivity.
Defined.

Lemma unreadable_upload_asks_for_text_witness :
  utf8_valid [xff] = false
  /\ exists msg,
       List.filter is_st_error
         (trace_of (main healthy_world (uploaded "text/plain" [xff] "AI")
                         initial_state))
       = [StError msg; StError no_text_message].
Proof.
  split; [reflexivity|].
  destruct (unreadable_upload_asks_for_text healthy_world
              (uploaded "text/plain" [xff] "AI") initial_state
              (mk_UploadedFile "text/plain" [xff]) "Running"
              eq_refl eq_refl eq_refl (or_introl (conj eq_refl eq_refl)))
    as (msg & H & _).
  exists msg. exact H.
Defined.

Lemma successful_run_shows_image_then_history_witness :
  List.filter is_media
    (trace_of (main healthy_world (typed "a cat" "AI") one_entry_state))
  = [StImage (JArr [JStr "img1.png"])].
Proof.
  refine (proj1 (proj2 (successful_run_shows_image_then_history healthy_world
                          (typed "a cat" "AI") one_entry_state "a cat" true
                          (mk_Response 200 (Return (JArr [JStr "img1.png"])))
                          (JArr [JStr "img1.png"])
                          eq_refl eq_refl eq_refl _ eq_refl eq_refl eq_refl
                          eq_refl _))).
  - discriminate.
  - constructor; [|constructor]. unfold is_entry, entry. eauto.
Defined.
